(** * guid_client: the mock server of the GUID API client

    A shallow embedding of [guid_client/client.py]: the argument validator
    [guid], the four request builders, [main], and the three callbacks that
    [mock_server] registers ([read_callback], [create_update_callback],
    [delete_callback]), together with the parts of Python the callbacks run
    on: [str] slicing and indexing, [dict] with insertion order, and the
    [json] module's [dumps] and [loads].

    Python [str] values are modelled by [string]; each [ascii] stands for the
    code point of the same number, so the model covers the code points
    U+0000..U+00FF.  Python [int] is [Z].  Python [float] is not modelled:
    the decoder answers [Unmodelled] on a text that holds a float literal
    (or an escape above U+00FF), and nothing is claimed about such a text.
    The limits of the interpreter, its recursion limit and the limit of
    [int] on the number of digits, are not part of the decoder either:
    [modelled] tells the request bodies on which the decoder of the model
    stands for the one of the interpreter, and the statements that depend
    on these limits assume it. *)

From Stdlib Require Import String Ascii List ZArith NArith Bool Lia Arith.
From Stdlib Require Import Decimal DecimalString DecimalFacts DecimalPos DecimalZ.
Import ListNotations.

#[local] Open Scope string_scope.
#[local] Open Scope Z_scope.

(* ================================================================== *)
(** ** Python values and exceptions *)

Module Py.

(** The exceptions the modelled code can raise. *)
Inductive exn : Type :=
| IndexError
| TypeError
| ValueError
| JSONDecodeError
| RecursionError
| ArgumentTypeError (msg : string)
| SystemExit (code : Z)
| NoMockAddress.

(** Outcome of running a piece of Python: a value, a raised exception, or
    [Unmodelled] when the run leaves the modelled fragment of Python. *)
Inductive result (A : Type) : Type :=
| Ok (a : A)
| Raise (e : exn)
| Unmodelled.

Arguments Ok {A} a.
Arguments Raise {A} e.
Arguments Unmodelled {A}.

Definition bind {A B : Type} (m : result A) (k : A -> result B) : result B :=
  match m with
  | Ok a => k a
  | Raise e => Raise e
  | Unmodelled => Unmodelled
  end.

Definition is_ok {A : Type} (m : result A) : bool :=
  match m with Ok _ => true | _ => false end.

(** [json.loads] values (and the values [json.dumps] is called on): [None],
    [bool], [int], [str], [list], and [dict] with [str] keys kept in
    insertion order. *)
Unset Elimination Schemes.
Inductive json : Type :=
| JNull
| JBool (b : bool)
| JInt (z : Z)
| JStr (s : string)
| JArr (l : list json)
| JObj (d : list (string * json)).
Set Elimination Schemes.

Definition dict : Type := list (string * json).

(** U+0022, the double quote. *)
Definition dquote : ascii := "034"%char.

(** [len(s)] *)
Definition len (s : string) : Z := Z.of_nat (String.length s).

(** [s[n:]] for [n >= 0]: the empty string when [n >= len(s)]. *)
Fixpoint slice_from (n : nat) (s : string) : string :=
  match n, s with
  | O, _ => s
  | S n', String _ s' => slice_from n' s'
  | S _, EmptyString => EmptyString
  end.

(** [s[0]]: [IndexError] on the empty string. *)
Definition first_char (s : string) : result ascii :=
  match s with
  | String c _ => Ok c
  | EmptyString => Raise IndexError
  end.

(** [s.startswith(p)] *)
Fixpoint startswith (p s : string) : bool :=
  match p, s with
  | EmptyString, _ => true
  | String a p', String b s' => Ascii.eqb a b && startswith p' s'
  | String _ _, EmptyString => false
  end.

(** [p in s] for two [str]: [p] occurs in [s] as a substring. *)
Fixpoint str_contains (p s : string) : bool :=
  startswith p s ||
  match s with
  | EmptyString => false
  | String _ s' => str_contains p s'
  end.

(** [c in s] for a one-character string [c]. *)
Fixpoint char_in (c : ascii) (s : string) : bool :=
  match s with
  | EmptyString => false
  | String a s' => Ascii.eqb c a || char_in c s'
  end.

(** [all([f(x) for x in s])] *)
Fixpoint all_chars (f : ascii -> bool) (s : string) : bool :=
  match s with
  | EmptyString => true
  | String a s' => f a && all_chars f s'
  end.

(** [c.upper()] on a code point of [string.hexdigits]; only the ASCII
    letters are needed. *)
Definition upper_char (c : ascii) : ascii :=
  let n := N_of_ascii c in
  if ((97 <=? n) && (n <=? 122))%N then ascii_of_N (n - 32) else c.

Fixpoint upper (s : string) : string :=
  match s with
  | EmptyString => EmptyString
  | String c s' => String (upper_char c) (upper s')
  end.

(** [c.lower()] on a code point up to U+00FF: the ASCII capitals and the
    Latin-1 capitals U+00C0 to U+00DE, the multiplication sign U+00D7
    apart, move up by 32; every other code point stays. *)
Definition lower_char (c : ascii) : ascii :=
  let n := N_of_ascii c in
  if ((65 <=? n) && (n <=? 90) ||
      (192 <=? n) && (n <=? 222) && negb (n =? 215))%N
  then ascii_of_N (n + 32) else c.

(** [s.lower()] *)
Fixpoint lower (s : string) : string :=
  match s with
  | EmptyString => EmptyString
  | String c s' => String (lower_char c) (lower s')
  end.

(** [string.hexdigits] *)
Definition hexdigits : string := "0123456789abcdefABCDEF".

(** *** dict *)

(** [k in d] *)
Fixpoint dict_contains (k : string) (d : dict) : bool :=
  match d with
  | [] => false
  | (k', _) :: d' => String.eqb k k' || dict_contains k d'
  end.

(** [d[k]] as an option *)
Fixpoint dict_get (k : string) (d : dict) : option json :=
  match d with
  | [] => None
  | (k', v) :: d' => if String.eqb k k' then Some v else dict_get k d'
  end.

(** [d[k] = v]: an existing key keeps its place, a new key goes last. *)
Fixpoint dict_set (k : string) (v : json) (d : dict) : dict :=
  match d with
  | [] => [(k, v)]
  | (k', v') :: d' =>
      if String.eqb k k' then (k', v) :: d' else (k', v') :: dict_set k v d'
  end.

(** [s == v] for a [str] and a decoded value: only an equal [str] is
    equal to a [str]. *)
Definition py_eq_str (s : string) (v : json) : bool :=
  match v with
  | JStr s' => String.eqb s s'
  | _ => false
  end.

(** [key in body] for a [str] key and a decoded [body]: key membership for
    a dict, element membership for a list, substring for a str; [None],
    [bool] and [int] are not containers. *)
Definition py_contains (key : string) (body : json) : result bool :=
  match body with
  | JObj d => Ok (dict_contains key d)
  | JArr l => Ok (existsb (py_eq_str key) l)
  | JStr s => Ok (str_contains key s)
  | JNull | JBool _ | JInt _ => Raise TypeError
  end.

(** [response[key] = v] for a [str] key: only a dict accepts it. *)
Definition py_setitem (response : json) (key : string) (v : json) : result json :=
  match response with
  | JObj d => Ok (JObj (dict_set key v d))
  | _ => Raise TypeError
  end.

End Py.

Export Py.

Notation "x <- m ;; k" := (Py.bind m (fun x => k))
  (at level 61, m at next level, right associativity).
Notation "' p <- m ;; k" := (Py.bind m (fun x => let p := x in k))
  (at level 61, p pattern, m at next level, right associativity).

(* ================================================================== *)
(** ** The [json] module: [dumps] and [loads] with their default options *)

Module Json.

(** *** Encoder ([json.encoder], [ensure_ascii=True], separators [", "] and [": "]) *)

(** One lower-case hexadecimal digit, as [format(n, 'x')] for [n < 16]. *)
Definition hex_char (n : N) : ascii :=
  if (n <? 10)%N then ascii_of_N (48 + n) else ascii_of_N (87 + n).

(** [ESCAPE_DCT] and the [\uXXXX] fallback of [py_encode_basestring_ascii],
    for one code point: [ESCAPE_ASCII] matches the backslash, the double
    quote and everything outside [' '..'~']. *)
Definition escape_char (c : ascii) : string :=
  let n := N_of_ascii c in
  if Ascii.eqb c "\" then "\\"
  else if Ascii.eqb c dquote then String "\" (String dquote "")
  else if Ascii.eqb c "008" then "\b"
  else if Ascii.eqb c "012" then "\f"
  else if Ascii.eqb c "010" then "\n"
  else if Ascii.eqb c "013" then "\r"
  else if Ascii.eqb c "009" then "\t"
  else if ((32 <=? n) && (n <=? 126))%N then String c ""
  else "\u00" ++ String (hex_char (n / 16)) (String (hex_char (n mod 16)) "").

Fixpoint escape_ascii (s : string) : string :=
  match s with
  | EmptyString => EmptyString
  | String c s' => escape_char c ++ escape_ascii s'
  end.

(** [encode_basestring_ascii] *)
Definition encode_basestring_ascii (s : string) : string :=
  String dquote (escape_ascii s ++ String dquote "").

(** [int.__repr__] *)
Definition int_repr (z : Z) : string := NilZero.string_of_int (Z.to_int z).

(** [json.dumps(o)]: [_iterencode] with [_iterencode_list] and
    [_iterencode_dict]; [first] is the loops' flag of the same name. *)
Fixpoint dumps (o : json) : string :=
  let fix iterencode_list (first : bool) (lst : list json) : string :=
    match lst with
    | [] => ""
    | value :: lst' =>
        (if first then "" else ", ") ++ dumps value ++ iterencode_list false lst'
    end in
  let fix iterencode_dict (first : bool) (dct : dict) : string :=
    match dct with
    | [] => ""
    | (key, value) :: dct' =>
        (if first then "" else ", ") ++ encode_basestring_ascii key ++ ": "
        ++ dumps value ++ iterencode_dict false dct'
    end in
  match o with
  | JStr s => encode_basestring_ascii s
  | JNull => "null"
  | JBool true => "true"
  | JBool false => "false"
  | JInt z => int_repr z
  | JArr [] => "[]"
  | JArr lst => "[" ++ iterencode_list true lst ++ "]"
  | JObj [] => "{}"
  | JObj dct => "{" ++ iterencode_dict true dct ++ "}"
  end.

(** The two loops of [dumps], named. *)
Fixpoint iterencode_list (first : bool) (lst : list json) : string :=
  match lst with
  | [] => ""
  | value :: lst' =>
      (if first then "" else ", ") ++ dumps value ++ iterencode_list false lst'
  end.

Fixpoint iterencode_dict (first : bool) (dct : dict) : string :=
  match dct with
  | [] => ""
  | (key, value) :: dct' =>
      (if first then "" else ", ") ++ encode_basestring_ascii key ++ ": "
      ++ dumps value ++ iterencode_dict false dct'
  end.

(** *** Decoder ([json.decoder] and [json.scanner], [strict=True]) *)

(** [WHITESPACE_STR] *)
Definition is_ws (c : ascii) : bool :=
  Ascii.eqb c " " || Ascii.eqb c "009" || Ascii.eqb c "010" || Ascii.eqb c "013".

(** [s[WHITESPACE.match(s, 0).end():]] *)
Fixpoint skip_ws (s : string) : string :=
  match s with
  | String c s' => if is_ws c then skip_ws s' else s
  | EmptyString => s
  end.

Definition is_digit (c : ascii) : bool :=
  let n := N_of_ascii c in ((48 <=? n) && (n <=? 57))%N.

(** Value of one hexadecimal digit of a [\uXXXX] escape, either case. *)
Definition hex_value (c : ascii) : option N :=
  let n := N_of_ascii c in
  if ((48 <=? n) && (n <=? 57))%N then Some (n - 48)%N
  else if ((97 <=? n) && (n <=? 102))%N then Some (n - 87)%N
  else if ((65 <=? n) && (n <=? 70))%N then Some (n - 55)%N
  else None.

(** [_decode_uXXXX] on the four characters after [\u], as the C scanner
    reads them: four hexadecimal digits or a decode error. *)
Definition decode_uXXXX (a b c d : ascii) : option N :=
  match hex_value a, hex_value b, hex_value c, hex_value d with
  | Some x, Some y, Some z, Some w => Some (((x * 16 + y) * 16 + z) * 16 + w)%N
  | _, _, _, _ => None
  end.

(** [BACKSLASH] *)
Definition backslash (esc : ascii) : option ascii :=
  if Ascii.eqb esc dquote then Some dquote
  else if Ascii.eqb esc "\" then Some "\"%char
  else if Ascii.eqb esc "/" then Some "/"%char
  else if Ascii.eqb esc "b" then Some "008"%char
  else if Ascii.eqb esc "f" then Some "012"%char
  else if Ascii.eqb esc "n" then Some "010"%char
  else if Ascii.eqb esc "r" then Some "013"%char
  else if Ascii.eqb esc "t" then Some "009"%char
  else None.

(** [scanstring(s, end)] with [s] cut at [end], the character after the
    opening quote: the decoded string and the text after the closing quote.
    An escape above U+00FF leaves the model. *)
Fixpoint scanstring (s : string) : result (string * string) :=
  match s with
  | EmptyString => Raise JSONDecodeError
  | String c s' =>
      if Ascii.eqb c dquote then Ok (EmptyString, s')
      else if Ascii.eqb c "\" then
        match s' with
        | EmptyString => Raise JSONDecodeError
        | String esc s'' =>
            if Ascii.eqb esc "u" then
              match s'' with
              | String h1 (String h2 (String h3 (String h4 rest))) =>
                  match decode_uXXXX h1 h2 h3 h4 with
                  | None => Raise JSONDecodeError
                  | Some uni =>
                      if (uni <? 256)%N then
                        '(chunks, rest') <- scanstring rest ;;
                        Ok (String (ascii_of_N uni) chunks, rest')
                      else Unmodelled
                  end
              | _ => Raise JSONDecodeError
              end
            else
              match backslash esc with
              | None => Raise JSONDecodeError
              | Some char =>
                  '(chunks, rest') <- scanstring s'' ;;
                  Ok (String char chunks, rest')
              end
        end
      else if (N_of_ascii c <? 32)%N then Raise JSONDecodeError
      else
        '(chunks, rest') <- scanstring s' ;;
        Ok (String c chunks, rest')
  end.

(** The longest run of digits [\d*] at the head of [s], and what follows. *)
Fixpoint span_digits (s : string) : string * string :=
  match s with
  | String c s' =>
      if is_digit c then let '(ds, rest) := span_digits s' in (String c ds, rest)
      else (EmptyString, s)
  | EmptyString => (EmptyString, EmptyString)
  end.

(** First group of [NUMBER_RE], an optional minus sign followed by [0] or
    by a digit [1-9] and a run of digits: the matched text and what
    follows, or [None] when the group does not match. *)
Definition match_integer (s : string) : option (string * string) :=
  let '(sign, s1) :=
    match s with
    | String c r => if Ascii.eqb c "-" then ("-", r) else ("", s)
    | EmptyString => ("", s)
    end in
  match s1 with
  | String c r =>
      if Ascii.eqb c "0" then Some (sign ++ "0", r)
      else if is_digit c then
        let '(ds, rest) := span_digits r in Some (sign ++ String c ds, rest)
      else None
  | EmptyString => None
  end.

(** Second group of [NUMBER_RE], [(\.\d+)?], matches a non-empty text. *)
Definition match_frac (s : string) : bool :=
  match s with
  | String p (String c _) => Ascii.eqb p "." && is_digit c
  | _ => false
  end.

(** Third group of [NUMBER_RE], [([eE][-+]?\d+)?], matches a non-empty text. *)
Definition match_exp (s : string) : bool :=
  match s with
  | String e r =>
      (Ascii.eqb e "e" || Ascii.eqb e "E") &&
      match r with
      | String c r' =>
          if Ascii.eqb c "-" || Ascii.eqb c "+" then
            match r' with
            | String c' _ => is_digit c'
            | EmptyString => false
            end
          else is_digit c
      | EmptyString => false
      end
  | EmptyString => false
  end.

(** [int(integer)] on a text matched by the first group of [NUMBER_RE].
    The limit of [int] on the number of digits is left out;
    [within_limits] tells the texts that stay below it. *)
Definition parse_int (integer : string) : result json :=
  match NilZero.int_of_string integer with
  | Some d => Ok (JInt (Z.of_int d))
  | None => Raise JSONDecodeError
  end.

(** The number and constant cases of [_scan_once]: a float literal or a
    float constant leaves the model. *)
Definition scan_number (s : string) : result (json * string) :=
  match match_integer s with
  | Some (integer, rest) =>
      if match_frac rest || match_exp rest then Unmodelled
      else res <- parse_int integer ;; Ok (res, rest)
  | None =>
      if startswith "NaN" s || startswith "Infinity" s || startswith "-Infinity" s
      then Unmodelled
      else Raise JSONDecodeError
  end.

(** [_scan_once] with [JSONObject] and [JSONArray].  The Python functions
    call each other recursively; [depth] bounds the nesting of calls and
    running out of it is Python's [RecursionError].  [object_pairs] is the
    [while True] loop of [JSONObject], entered after the opening quote of a
    key, with the dict built so far; [array_values] is the loop of
    [JSONArray], with the values so far, last first. *)
Fixpoint scan_once (depth : nat) (s : string) : result (json * string) :=
  match depth with
  | O => Raise RecursionError
  | S depth' =>
      match s with
      | EmptyString => Raise JSONDecodeError
      | String nextchar s' =>
          if Ascii.eqb nextchar dquote then
            '(str, rest) <- scanstring s' ;; Ok (JStr str, rest)
          else if Ascii.eqb nextchar "{" then
            match skip_ws s' with
            | String c r =>
                if Ascii.eqb c "}" then Ok (JObj [], r)
                else if Ascii.eqb c dquote then object_pairs depth' [] r
                else Raise JSONDecodeError
            | EmptyString => Raise JSONDecodeError
            end
          else if Ascii.eqb nextchar "[" then
            match skip_ws s' with
            | String c r =>
                if Ascii.eqb c "]" then Ok (JArr [], r)
                else array_values depth' [] (String c r)
            | EmptyString => array_values depth' [] EmptyString
            end
          else if startswith "null" s then Ok (JNull, slice_from 4 s)
          else if startswith "true" s then Ok (JBool true, slice_from 4 s)
          else if startswith "false" s then Ok (JBool false, slice_from 5 s)
          else scan_number s
      end
  end

with object_pairs (depth : nat) (pairs : dict) (s : string)
  : result (json * string) :=
  match depth with
  | O => Raise RecursionError
  | S depth' =>
      '(key, s1) <- scanstring s ;;
      match skip_ws s1 with
      | String colon s2 =>
          if Ascii.eqb colon ":" then
            '(value, s3) <- scan_once depth' (skip_ws s2) ;;
            let pairs' := dict_set key value pairs in
            match skip_ws s3 with
            | String nextchar s4 =>
                if Ascii.eqb nextchar "}" then Ok (JObj pairs', s4)
                else if Ascii.eqb nextchar "," then
                  match skip_ws s4 with
                  | String c s5 =>
                      if Ascii.eqb c dquote then object_pairs depth' pairs' s5
                      else Raise JSONDecodeError
                  | EmptyString => Raise JSONDecodeError
                  end
                else Raise JSONDecodeError
            | EmptyString => Raise JSONDecodeError
            end
          else Raise JSONDecodeError
      | EmptyString => Raise JSONDecodeError
      end
  end

with array_values (depth : nat) (values : list json) (s : string)
  : result (json * string) :=
  match depth with
  | O => Raise RecursionError
  | S depth' =>
      '(value, s1) <- scan_once depth' s ;;
      match skip_ws s1 with
      | String nextchar s2 =>
          if Ascii.eqb nextchar "]" then Ok (JArr (List.rev (value :: values)), s2)
          else if Ascii.eqb nextchar "," then
            array_values depth' (value :: values) (skip_ws s2)
          else Raise JSONDecodeError
      | EmptyString => Raise JSONDecodeError
      end
  end.

(** Nesting depth that no text of this length exhausts: the decoder of
    the model never meets the recursion limit of the interpreter, which
    a deeply nested text does; [within_limits] tells the texts that stay
    below it. *)
Definition enough_depth (s : string) : nat := 2 * String.length s + 2.

(** [JSONDecoder.decode]: leading whitespace, one value, trailing
    whitespace, nothing else. *)
Definition decode (s : string) : result json :=
  '(obj, rest) <- scan_once (enough_depth s) (skip_ws s) ;;
  match skip_ws rest with
  | EmptyString => Ok obj
  | String _ _ => Raise JSONDecodeError
  end.

(** [json.loads(s)]; [s] is [None] for a request that carries no body. *)
Definition loads (s : option string) : result json :=
  match s with
  | None => Raise TypeError
  | Some text => decode text
  end.

End Json.

(* ================================================================== *)
(** ** The client: validators, request builders, [mock_server], [main] *)

Inductive http_method : Type := GET | POST | DELETE.

Definition http_method_eqb (a b : http_method) : bool :=
  match a, b with
  | GET, GET | POST, POST | DELETE, DELETE => true
  | _, _ => false
  end.

(** The sub-command chosen on the command line; [set_defaults(func=...)]
    binds each to its request function. *)
Inductive command : Type := Create | Read | Update | Delete.

(** The [argparse] namespace [args] handed to a request function. *)
Module Args.
Record namespace : Type := Namespace {
  url : string;
  guid : option string;
  user : option string;
  expire : option string;
  func : command
}.
End Args.

(** A call on [session]: [session.get(url)], [session.post(url, data=...)]
    or [session.delete(url)]. *)
Record http_request : Type := HttpRequest {
  call_method : http_method;
  call_url : string;
  call_data : option string
}.

(** The request object that the mock adapter hands to a callback.  The
    callbacks read [path] and [text] only; [text] is [None] when the
    request carries no body. *)
Record request : Type := Request {
  method : http_method;
  req_url : string;
  path : string;
  query : string;
  headers : list (string * string);
  text : option string
}.

(** The [context] argument of a callback. *)
Record context : Type := Context {
  status_code : Z;
  reason : option string
}.

(** The response that the adapter builds from a callback's return value
    and from the context the callback leaves. *)
Record response : Type := Response {
  resp_status_code : Z;
  resp_reason : option string;
  resp_text : string
}.

Definition callback : Type := request -> context -> result (string * context).

(** One [register_uri(method, url, text=callback)] entry; [matcher_url] is
    the source of the compiled regular expression. *)
Record matcher : Type := Matcher {
  matcher_method : http_method;
  matcher_url : string;
  matcher_text : callback
}.

(** What [main] does to the world, in order. *)
Inductive event : Type :=
| Mount (prefix : string) (adapter : list matcher)
| Send (call : http_request).

(** [guid(guid)]: the [argparse] type function of [--guid]. *)
Definition guid (guid : string) : result string :=
  if negb (len guid =? 32) then
    Raise (ArgumentTypeError "GUID needs to be 32 characters")
  else if negb (all_chars (fun x => char_in x (upper hexdigits)) guid) then
    Raise (ArgumentTypeError "GUID is not a upper-case hexadecimal number")
  else Ok guid.

(** ["%s" % v] for a [str] or [None]. *)
Definition percent_s (v : option string) : string :=
  match v with
  | Some s => s
  | None => "None"
  end.

(** A [str] or [None] as a value handed to [json.dumps]. *)
Definition py_str (v : option string) : json :=
  match v with
  | Some s => JStr s
  | None => JNull
  end.

(** The request functions, without the printing that [handle_response]
    wraps around them: the call each makes on [session]. *)
Definition create_request (args : Args.namespace) : http_request :=
  match Args.guid args with
  | None =>
      let body := Json.dumps (JObj [("user", py_str (Args.user args))]) in
      HttpRequest POST (Args.url args ++ "/guid") (Some body)
  | Some _ =>
      let body := Json.dumps (JObj [("user", py_str (Args.user args));
                                    ("expire", py_str (Args.expire args))]) in
      HttpRequest POST (Args.url args ++ "/guid/" ++ percent_s (Args.guid args))
                  (Some body)
  end.

Definition read_request (args : Args.namespace) : http_request :=
  HttpRequest GET (Args.url args ++ "/guid/" ++ percent_s (Args.guid args)) None.

Definition update_request (args : Args.namespace) : http_request :=
  HttpRequest POST (Args.url args ++ "/guid/" ++ percent_s (Args.guid args))
              (Some (Json.dumps (JObj [("expire", py_str (Args.expire args))]))).

Definition delete_request (args : Args.namespace) : http_request :=
  HttpRequest DELETE (Args.url args ++ "/guid/" ++ percent_s (Args.guid args)) None.

(** [parsed.func(parsed)] *)
Definition call_func (parsed : Args.namespace) : http_request :=
  match Args.func parsed with
  | Create => create_request parsed
  | Read => read_request parsed
  | Update => update_request parsed
  | Delete => delete_request parsed
  end.

(** *** The callbacks of [mock_server] *)

(** The two [if guid[0] == ...] statements, which the three callbacks
    repeat word for word. *)
Definition fake_status (guid : string) : context -> result context :=
  fun context =>
  c <- first_char guid ;;
  let context :=
    if Ascii.eqb c "9" then Context 503 (Some "mock server error test")
    else context in
  c <- first_char guid ;;
  let context :=
    if Ascii.eqb c "8" then Context 404 (Some "mock client error test")
    else context in
  Ok context.

Definition read_callback : callback := fun req context =>
  let guid := slice_from 6 (path req) in
  context <- fake_status guid context ;;
  Ok (Json.dumps (JObj [("guid", JStr guid);
                        ("expire", JStr "1234123123123");
                        ("user", JStr "foo")]),
      context).

(** [response = body] makes [response] and [body] two names of one dict:
    every assignment through [response] is seen through [body], so the
    model rebinds both. *)
Definition create_update_callback : callback := fun req context =>
  let guid := "77777777777777" in
  let guid := if 5 <? len (path req) then slice_from 6 (path req) else guid in
  body <- Json.loads (text req) ;;
  let response := body in
  has_expire <- py_contains "expire" body ;;
  response <- (if negb has_expire
               then py_setitem response "expire" (JStr "999999999999")
               else Ok response) ;;
  let body := response in
  has_user <- py_contains "user" body ;;
  response <- (if negb has_user
               then py_setitem response "user" (JStr "mock generated")
               else Ok response) ;;
  response <- py_setitem response "guid" (JStr guid) ;;
  context <- fake_status guid context ;;
  Ok (Json.dumps response, context).

Definition delete_callback : callback := fun req context =>
  let guid := slice_from 6 (path req) in
  context <- fake_status guid context ;;
  Ok ("", context).

(** Source of [mock_re]. *)
Definition mock_re : string := "mock://test.net/guid".

(** The adapter that [mock_server] fills, in registration order. *)
Definition mock_server : list matcher :=
  [ Matcher GET mock_re read_callback;
    Matcher POST mock_re create_update_callback;
    Matcher DELETE mock_re delete_callback ].

(** *** The mock adapter, as [requests_mock] runs the callbacks *)

(** The context of a new response: [register_uri] was given no
    [status_code] and no [reason], so 200 and [None]. *)
Definition fresh_context : context := Context 200 None.

(** Run one callback on a request and build the response. *)
Definition respond (cb : callback) (req : request) : result response :=
  '(body, context) <- cb req fresh_context ;;
  Ok (Response (status_code context) (reason context) body).

(** [pattern.match(s)] for a pattern made of literal characters and of
    [.], which stands for any character but the newline. *)
Fixpoint re_match (pattern s : string) : bool :=
  match pattern, s with
  | EmptyString, _ => true
  | String p pattern', String c s' =>
      (if Ascii.eqb p "." then negb (Ascii.eqb c "010") else Ascii.eqb p c)
      && re_match pattern' s'
  | String _ _, EmptyString => false
  end.

(** [pattern.search(s) is not None] *)
Fixpoint re_search (pattern s : string) : bool :=
  re_match pattern s ||
  match s with
  | EmptyString => false
  | String _ s' => re_search pattern s'
  end.

(** The synthesizer an adapter runs on a request: the last registered
    matcher with the request's method whose pattern is found in the URL. *)
Definition find_matcher (adapter : list matcher) (req : request) : option matcher :=
  find (fun m => http_method_eqb (matcher_method m) (method req)
                 && re_search (matcher_url m) (req_url req))
       (List.rev adapter).

(** [adapter.send(request)]: the response of the matching synthesizer, or
    [NoMockAddress] when no matcher fits. *)
Definition send (adapter : list matcher) (req : request) : result response :=
  match find_matcher adapter req with
  | Some m => respond (matcher_text m) req
  | None => Raise NoMockAddress
  end.

(** *** [main] *)

Section Main.

(** [urlparse(endpoint).scheme] *)
Variable urlparse_scheme : string -> string.

(** [time.time() > int(epoch_time)]; [None] when [int] raises. *)
Variable after_epoch : string -> option bool.

(** [url(endpoint)]: the [argparse] type function of [--url]. *)
Definition url (endpoint : string) : result string :=
  if String.eqb (urlparse_scheme endpoint) "" then
    Raise (ArgumentTypeError
      "HTTP scheme needs to be provided, e.g. https://<host> or http://<host>")
  else Ok endpoint.

(** [future_time(epoch_time)]: the [argparse] type function of [--expire]. *)
Definition future_time (epoch_time : string) : result string :=
  match after_epoch epoch_time with
  | None => Raise ValueError
  | Some true => Raise (ArgumentTypeError "Specified time is not in the future")
  | Some false => Ok epoch_time
  end.

(** The option values of one command line, before any type function.
    The command lines of this form name one of the four sub-commands and
    carry, besides it, only the options [--url], [--guid], [--user] and
    [--expire], each with a value; a command line without a sub-command,
    and one with [-h] or [--version], which [argparse] answers by itself,
    are not of this form. *)
Record argv : Type := Argv {
  argv_command : command;
  argv_url : option string;
  argv_guid : option string;
  argv_user : option string;
  argv_expire : option string
}.

(** How a sub-parser declares an option. *)
Inductive declared : Type := Absent | Optional | Required.

(** [parser.error(message)]: the message is printed and the process
    exits with status 2. *)
Definition parser_error {A : Type} : result A := Raise (SystemExit 2).

(** One option of a sub-parser: an undeclared option on the command line,
    a missing required one, or a value on which its type function raises
    [ArgumentTypeError], [TypeError] or [ValueError], ends the run in
    [parser.error]. *)
Definition parse_option (decl : declared) (type : string -> result string)
                        (raw : option string) : result (option string) :=
  match raw, decl with
  | Some _, Absent => parser_error
  | Some v, _ =>
      match type v with
      | Ok x => Ok (Some x)
      | Raise (ArgumentTypeError _) | Raise TypeError | Raise ValueError =>
          parser_error
      | Raise e => Raise e
      | Unmodelled => Unmodelled
      end
  | None, Required => parser_error
  | None, _ => Ok None
  end.

(** The [add_expire], [add_user], [add_guid] calls of each sub-parser. *)
Definition expire_decl (c : command) : declared :=
  match c with Create => Optional | Update => Required | _ => Absent end.

Definition user_decl (c : command) : declared :=
  match c with Create => Required | _ => Absent end.

Definition guid_decl (c : command) : declared :=
  match c with Create => Optional | _ => Required end.

(** [parser.parse_args()] *)
Definition parse_args (a : argv) : result Args.namespace :=
  let c := argv_command a in
  e <- parse_option (expire_decl c) future_time (argv_expire a) ;;
  u <- parse_option (user_decl c) Ok (argv_user a) ;;
  g <- parse_option (guid_decl c) guid (argv_guid a) ;;
  endpoint <- parse_option Required url (argv_url a) ;;
  match endpoint with
  | Some endpoint => Ok (Args.Namespace endpoint g u e c)
  | None => parser_error
  end.

(** The body of [main] after [parse_args]: the events, in order. *)
Definition run (parsed : Args.namespace) : list event :=
  (if startswith "mock://" (Args.url parsed)
   then [Mount "mock" mock_server] else [])
  ++ [Send (call_func parsed)].

Definition main (a : argv) : result (list event) :=
  parsed <- parse_args a ;;
  Ok (run parsed).

End Main.

(* ================================================================== *)
(** ** Vocabulary of the statements *)

(** A dict holds each key once. *)
Fixpoint unique_keys (d : dict) : bool :=
  match d with
  | [] => true
  | (k, _) :: d' => negb (dict_contains k d') && unique_keys d'
  end.

(** A [json] term that stands for a Python value: every dict in it holds
    each key once. *)
Fixpoint well_formed (v : json) : bool :=
  match v with
  | JArr l => forallb well_formed l
  | JObj d =>
      unique_keys d &&
      (fix members (d : dict) : bool :=
         match d with
         | [] => true
         | (_, x) :: d' => well_formed x && members d'
         end) d
  | _ => true
  end.

Fixpoint well_formed_members (d : dict) : bool :=
  match d with
  | [] => true
  | (_, x) :: d' => well_formed x && well_formed_members d'
  end.

(** Number of calls that decoding the encoded value nests at most. *)
Fixpoint size (v : json) : nat :=
  match v with
  | JArr l => S (fold_right (fun x n => S (size x) + n)%nat O l)
  | JObj d =>
      S ((fix members (d : dict) : nat :=
            match d with
            | [] => O
            | (_, x) :: d' => (S (size x) + members d')%nat
            end) d)
  | _ => 1%nat
  end.

Fixpoint size_list (l : list json) : nat :=
  match l with
  | [] => O
  | x :: l' => (S (size x) + size_list l')%nat
  end.

Fixpoint size_members (d : dict) : nat :=
  match d with
  | [] => O
  | (_, x) :: d' => (S (size x) + size_members d')%nat
  end.

(** A text that may follow an encoded value without joining it: it does
    not begin with a digit, a dot or an exponent letter. *)
Definition follow_ok (rest : string) : bool :=
  match rest with
  | EmptyString => true
  | String c _ =>
      negb (Json.is_digit c || Ascii.eqb c "." || Ascii.eqb c "e" || Ascii.eqb c "E")
  end.

(** The characters an encoded value begins with. *)
Definition value_start (c : ascii) : bool :=
  Ascii.eqb c dquote || Ascii.eqb c "{" || Ascii.eqb c "[" || Ascii.eqb c "n"
  || Ascii.eqb c "t" || Ascii.eqb c "f" || Ascii.eqb c "-" || Json.is_digit c.

(** [s] between double quotes. *)
Definition quoted (s : string) : string := String dquote (s ++ String dquote "").

(** The status rule as the specification words it: ['9'] gives 503, ['8']
    gives 404, any other first character gives 200. *)
Definition spec_status (c : ascii) : Z :=
  if Ascii.eqb c "9" then 503 else if Ascii.eqb c "8" then 404 else 200.

(** The reason that goes with each status: the fixed diagnostic texts, and
    none for 200. *)
Definition spec_reason (c : ascii) : option string :=
  if Ascii.eqb c "9" then Some "mock server error test"
  else if Ascii.eqb c "8" then Some "mock client error test"
  else None.

(** An upper-case hexadecimal digit, [0-9A-F]. *)
Definition is_upper_hex (c : ascii) : bool :=
  let n := N_of_ascii c in
  (((48 <=? n) && (n <=? 57)) || ((65 <=? n) && (n <=? 70)))%N.

(** Two intercepted requests with the same method, path and body; their
    other fields are free. *)
Definition same_input (r1 r2 : request) : Prop :=
  method r1 = method r2 /\ path r1 = path r2 /\ text r1 = text r2.

(** A character that the encoder writes as it is. *)
Definition plain_char (c : ascii) : bool :=
  let n := N_of_ascii c in
  ((32 <=? n) && (n <=? 126))%N && negb (Ascii.eqb c dquote) && negb (Ascii.eqb c "\").

(** The placeholder GUID of a CREATE on the bare path. *)
Definition placeholder_guid : string := "77777777777777".

(** The specification's response body of CREATE/UPDATE, word for word: the
    input body with [expire] and [user] filled in with the fixed
    placeholders when missing, and [guid] set. *)
Definition fill_missing (key placeholder : string) (d : dict) : dict :=
  if dict_contains key d then d else dict_set key (JStr placeholder) d.

Definition spec_create_update_body (guid : string) (d : dict) : dict :=
  dict_set "guid" (JStr guid)
    (fill_missing "user" "mock generated"
       (fill_missing "expire" "999999999999" d)).

(** The specification's response body of READ. *)
Definition spec_read_body (guid : string) : dict :=
  [("guid", JStr guid); ("expire", JStr "1234123123123"); ("user", JStr "foo")].

(** The events of a run that install the mock adapter. *)
Definition is_mount (e : event) : bool :=
  match e with Mount _ _ => true | Send _ => false end.

(** The events of a run that dispatch a call. *)
Definition is_send (e : event) : bool :=
  match e with Send _ => true | Mount _ _ => false end.

(** The round trip of one value through the encoder and the scanner,
    whatever text follows it. *)
Definition round_trip (v : json) : Prop :=
  forall n rest,
    well_formed v = true -> follow_ok rest = true -> (size v <= n)%nat ->
    Json.scan_once n (Json.dumps v ++ rest) = Ok (v, rest).

(* ================================================================== *)
(** ** [handle_response] *)

Section HandleResponse.

(** The text of the [HTTPError] that [raise_for_status] builds for a
    response, as [print(e)] shows it. *)
Variable http_error_msg : response -> string.

(** [session.get], [session.post] and [session.delete]: the response to a
    call, or the exception raised while sending. *)
Variable session_send : http_request -> result response.

(** [r.raise_for_status()]: [Some e] when it raises the [HTTPError] [e],
    which it does for a status code of the 4xx and 5xx classes. *)
Definition raise_for_status (r : response) : option string :=
  if (400 <=? resp_status_code r) && (resp_status_code r <? 600)
  then Some (http_error_msg r) else None.

(** [handle_response(request_func)(args)]: the values printed, one for
    each [print].  [request_func] is the call that the decorated function
    makes; sending it is outside the [try]. *)
Definition handle_response (request_func : Args.namespace -> http_request)
                           (args : Args.namespace) : result (list string) :=
  r <- session_send (request_func args) ;;
  match raise_for_status r with
  | Some e => Ok [e]
  | None => Ok [resp_text r; "Success"]
  end.

End HandleResponse.

(** An option of a command line that its sub-parser takes: it is declared
    when given, given when required, and its type function returns. *)
Definition option_accepted (decl : declared) (type : string -> result string)
                           (raw : option string) : Prop :=
  match raw, decl with
  | Some _, Absent => False
  | Some v, _ => exists x, type v = Ok x
  | None, Required => False
  | None, _ => True
  end.


(** The limits of the interpreter that the decoder of the model leaves
    out: [int] refuses a text of more than 4300 digits, and the scanner
    raises [RecursionError] when the nesting of arrays and objects exceeds
    what is left of the recursion limit.  A text with at most
    [nesting_limit] opening brackets and no run of more than
    [max_str_digits] digits meets neither. *)
Definition max_str_digits : nat := 4300.

Definition nesting_limit : nat := 100.

Fixpoint count_open (s : string) : nat :=
  match s with
  | EmptyString => O
  | String c s' =>
      if Ascii.eqb c "[" || Ascii.eqb c "{" then S (count_open s')
      else count_open s'
  end.

(** No run of digits of [s] is longer than [limit]; [run] digits precede. *)
Fixpoint digit_runs_within (limit run : nat) (s : string) : bool :=
  match s with
  | EmptyString => true
  | String c s' =>
      if Json.is_digit c
      then (S run <=? limit)%nat && digit_runs_within limit (S run) s'
      else digit_runs_within limit O s'
  end.

Definition within_limits (s : string) : bool :=
  (count_open s <=? nesting_limit)%nat &&
  digit_runs_within max_str_digits O s.

(** A request body on which [json.loads] of the model stands for
    [json.loads] of the interpreter: it is within the limits, and the
    decoder meets no float literal and no float constant in it.  A
    request without a body is such a one. *)
Definition modelled (text : option string) : bool :=
  match text with
  | None => true
  | Some s =>
      within_limits s &&
      match Json.decode s with
      | Unmodelled => false
      | _ => true
      end
  end.

(* ================================================================== *)
(** ** Strings *)

Lemma append_assoc (a b c : string) : (a ++ b) ++ c = a ++ (b ++ c).
Proof. induction a as [|x a IH]; simpl; [reflexivity | now rewrite IH]. Qed.

Lemma append_nil_r (a : string) : a ++ "" = a.
Proof. induction a as [|x a IH]; simpl; [reflexivity | now rewrite IH]. Qed.

Lemma length_append (a b : string) :
  String.length (a ++ b) = (String.length a + String.length b)%nat.
Proof. induction a as [|x a IH]; simpl; [reflexivity | now rewrite IH]. Qed.

(** The induction principle of [json], with the hypotheses on the members
    of a list and of a dict. *)
Lemma json_ind (P : json -> Prop)
  (Hnull : P JNull)
  (Hbool : forall b, P (JBool b))
  (Hint : forall z, P (JInt z))
  (Hstr : forall s, P (JStr s))
  (Harr : forall l, Forall P l -> P (JArr l))
  (Hobj : forall d, Forall (fun kv => P (snd kv)) d -> P (JObj d)) :
  forall v, P v.
Proof.
  fix IH 1. intros [| b | z | s | l | d].
  - exact Hnull.
  - apply Hbool.
  - apply Hint.
  - apply Hstr.
  - apply Harr. induction l as [|x l IHl]; constructor; [apply IH | exact IHl].
  - apply Hobj. induction d as [|[k x] d IHd]; constructor; [apply IH | exact IHd].
Qed.

Lemma well_formed_obj (d : dict) :
  well_formed (JObj d) = unique_keys d && well_formed_members d.
Proof. reflexivity. Qed.

Lemma size_arr (l : list json) : size (JArr l) = S (size_list l).
Proof. reflexivity. Qed.

Lemma size_obj (d : dict) : size (JObj d) = S (size_members d).
Proof. reflexivity. Qed.

(* ================================================================== *)
(** ** The decoder reads back what the encoder writes *)

Ltac each_char c :=
  destruct c as [[] [] [] [] [] [] [] []].

Lemma scanstring_escape_char (c : ascii) (t : string) :
  Json.scanstring (Json.escape_char c ++ t) =
  Py.bind (Json.scanstring t) (fun x => let '(chunks, r) := x in Ok (String c chunks, r)).
Proof. each_char c; reflexivity. Qed.

Lemma scanstring_escape_ascii (s rest : string) :
  Json.scanstring (Json.escape_ascii s ++ String dquote rest) = Ok (s, rest).
Proof.
  induction s as [|c s IH]; simpl.
  - reflexivity.
  - rewrite append_assoc, scanstring_escape_char, IH. reflexivity.
Qed.

Lemma span_digits_uint (d : uint) (rest : string) :
  follow_ok rest = true ->
  Json.span_digits (NilEmpty.string_of_uint d ++ rest) = (NilEmpty.string_of_uint d, rest).
Proof.
  intros Hrest. induction d; simpl; rewrite ?IHd; try reflexivity.
  destruct rest as [|c r]; [reflexivity|].
  simpl in *. destruct (Json.is_digit c); [discriminate | reflexivity].
Qed.

Lemma to_uint_head (p : positive) :
  exists c ds, NilEmpty.string_of_uint (Pos.to_uint p) = String c ds
               /\ Json.is_digit c = true /\ Ascii.eqb c "0" = false
               /\ exists d, ds = NilEmpty.string_of_uint d.
Proof.
  assert (Hn : nzhead (Pos.to_uint p) = Pos.to_uint p).
  { pose proof (Unsigned.to_of (Pos.to_uint p)) as H.
    rewrite Unsigned.of_to in H. simpl in H.
    destruct (nzhead (Pos.to_uint p)) eqn:E;
      try (rewrite <- E; rewrite (unorm_nzhead (Pos.to_uint p)) in H by (rewrite E; discriminate);
           now symmetry).
    exfalso. unfold unorm in H. rewrite E in H.
    now apply (Unsigned.to_uint_nonzero p). }
  pose proof (nzhead_nonzero (Pos.to_uint p)) as Hz.
  rewrite Hn in Hz.
  pose proof (Unsigned.to_uint_nonnil p) as Hnil.
  destruct (Pos.to_uint p) as [|d|d|d|d|d|d|d|d|d|d];
    [now elim Hnil | now elim (Hz d) | ..];
    simpl; eexists; eexists; (split; [reflexivity|]); repeat split; eauto.
Qed.
Lemma match_integer_int_repr (z : Z) (rest : string) :
  follow_ok rest = true ->
  Json.match_integer (Json.int_repr z ++ rest) = Some (Json.int_repr z, rest).
Proof.
  intros Hrest. unfold Json.int_repr.
  destruct z as [|p|p]; simpl.
  - reflexivity.
  - pose proof (Unsigned.to_uint_nonnil p) as Hnil.
    destruct (to_uint_head p) as (c & ds & E & Hd & H0 & d & ->).
    unfold NilZero.string_of_uint.
    destruct (Pos.to_uint p) eqn:Ep; [now elim Hnil | ..];
      rewrite E; unfold Json.match_integer; simpl;
      (destruct (Ascii.eqb c "-") eqn:Em;
       [ apply Ascii.eqb_eq in Em; subst c; discriminate | ]);
      rewrite H0, Hd, span_digits_uint by assumption; reflexivity.
  - pose proof (Unsigned.to_uint_nonnil p) as Hnil.
    destruct (to_uint_head p) as (c & ds & E & Hd & H0 & d & ->).
    unfold NilZero.string_of_uint.
    destruct (Pos.to_uint p) eqn:Ep; [now elim Hnil | ..];
      rewrite E; unfold Json.match_integer; simpl;
      rewrite H0, Hd, span_digits_uint by assumption; reflexivity.
Qed.

Lemma parse_int_int_repr (z : Z) : Json.parse_int (Json.int_repr z) = Ok (JInt z).
Proof.
  unfold Json.parse_int, Json.int_repr.
  rewrite NilZero.isi.
  - now rewrite DecimalZ.of_to.
  - destruct z; simpl; try discriminate.
    intros [= H]. now apply (Unsigned.to_uint_nonnil p).
  - destruct z; simpl; try discriminate.
    intros [= H]. now apply (Unsigned.to_uint_nonnil p).
Qed.

Lemma int_repr_head (z : Z) :
  exists c t, Json.int_repr z = String c t
              /\ (Json.is_digit c || Ascii.eqb c "-") = true.
Proof.
  unfold Json.int_repr. destruct z as [|p|p]; simpl.
  - now exists "0"%char, "".
  - pose proof (Unsigned.to_uint_nonnil p) as Hnil.
    destruct (to_uint_head p) as (c & ds & E & Hd & _).
    unfold NilZero.string_of_uint.
    destruct (Pos.to_uint p); [now elim Hnil | ..];
      rewrite E; exists c, ds; now rewrite Hd.
  - eexists; eexists; split; reflexivity.
Qed.

Lemma follow_no_frac_exp (rest : string) :
  follow_ok rest = true ->
  Json.match_frac rest || Json.match_exp rest = false.
Proof.
  destruct rest as [|c r]; [reflexivity|]. simpl.
  destruct (Json.is_digit c), (Ascii.eqb c ".") eqn:E1, (Ascii.eqb c "e") eqn:E2,
    (Ascii.eqb c "E") eqn:E3; simpl; try discriminate.
  intros _. destruct r; reflexivity.
Qed.

Lemma scan_once_number (n : nat) (c : ascii) (t : string) :
  (Json.is_digit c || Ascii.eqb c "-") = true ->
  Json.scan_once (S n) (String c t) = Json.scan_number (String c t).
Proof. each_char c; intros H; try discriminate H; reflexivity. Qed.

Lemma scan_once_int (n : nat) (z : Z) (rest : string) :
  follow_ok rest = true ->
  Json.scan_once (S n) (Json.int_repr z ++ rest) = Ok (JInt z, rest).
Proof.
  intros Hrest.
  destruct (int_repr_head z) as (c & t & E & Hc).
  pose proof (match_integer_int_repr z rest Hrest) as Hm.
  rewrite E in *. change (String c t ++ rest) with (String c (t ++ rest)) in *.
  rewrite scan_once_number by assumption.
  unfold Json.scan_number. rewrite Hm, follow_no_frac_exp by assumption.
  rewrite <- E, parse_int_int_repr. reflexivity.
Qed.

Lemma dumps_arr_cons (x : json) (l : list json) :
  Json.dumps (JArr (x :: l)) = "[" ++ Json.iterencode_list true (x :: l) ++ "]".
Proof. reflexivity. Qed.

Lemma dumps_obj_cons (kv : string * json) (d : dict) :
  Json.dumps (JObj (kv :: d)) = "{" ++ Json.iterencode_dict true (kv :: d) ++ "}".
Proof. destruct kv; reflexivity. Qed.

Lemma dumps_head (v : json) :
  exists c t, Json.dumps v = String c t /\ value_start c = true.
Proof.
  destruct v as [| [] | z | s | [|x l] | [|[k x] d]];
    try (eexists; eexists; split; reflexivity).
  destruct (int_repr_head z) as (c & t & E & Hc).
  exists c, t. split; [exact E|].
  unfold value_start. revert Hc.
  destruct (Json.is_digit c), (Ascii.eqb c "-"); simpl; try discriminate;
    intros _; now rewrite ?orb_true_r.
Qed.

Lemma value_start_not (c : ascii) :
  value_start c = true ->
  Json.is_ws c = false /\ Ascii.eqb c "]" = false /\ Ascii.eqb c "}" = false.
Proof. each_char c; intros H; try discriminate H; repeat split. Qed.

Lemma skip_ws_dumps (v : json) (t : string) :
  Json.skip_ws (Json.dumps v ++ t) = Json.dumps v ++ t.
Proof.
  destruct (dumps_head v) as (c & r & E & Hc). rewrite E. simpl.
  destruct (value_start_not c Hc) as (-> & _). reflexivity.
Qed.

Lemma skip_ws_space (t : string) : Json.skip_ws (String " " t) = Json.skip_ws t.
Proof. reflexivity. Qed.

Lemma skip_ws_not_ws (c : ascii) (t : string) :
  Json.is_ws c = false -> Json.skip_ws (String c t) = String c t.
Proof. intros H. simpl. now rewrite H. Qed.


Lemma array_values_dumps (l : list json) :
  Forall round_trip l ->
  forall x acc n rest,
    round_trip x ->
    forallb well_formed (x :: l) = true -> follow_ok rest = true ->
    (size_list (x :: l) <= n)%nat ->
    Json.array_values n acc
      (Json.dumps x ++ Json.iterencode_list false l ++ "]" ++ rest)
    = Ok (JArr (List.rev acc ++ x :: l), rest).
Proof.
  induction 1 as [|y l Hy Hl IH]; intros x acc n rest Hx Hwf Hrest Hn.
  - simpl in Hwf, Hn. rewrite andb_true_r in Hwf.
    destruct n as [|n]; [lia|]. simpl.
    rewrite Hx by (trivial; lia). simpl. reflexivity.
  - simpl in Hwf, Hn. apply andb_prop in Hwf as [Hwx Hwf].
    destruct n as [|n]; [lia|].
    cbn [Json.array_values Json.iterencode_list].
    rewrite Hx by (trivial; lia). cbn [Py.bind].
    change ((", " ++ Json.dumps y ++ Json.iterencode_list false l) ++ "]" ++ rest)
      with (String "," (String " " ((Json.dumps y ++ Json.iterencode_list false l) ++ "]" ++ rest))).
    rewrite (skip_ws_not_ws ",") by reflexivity.
    change (Ascii.eqb "," "]") with false. change (Ascii.eqb "," ",") with true.
    cbv iota. rewrite skip_ws_space, append_assoc, skip_ws_dumps.
    rewrite IH by (trivial; simpl; lia).
    simpl. rewrite <- app_assoc. reflexivity.
Qed.

Lemma dict_contains_app (k : string) (a b : dict) :
  dict_contains k (a ++ b)%list = dict_contains k a || dict_contains k b.
Proof.
  induction a as [|[k' v'] a IH]; simpl; [reflexivity|].
  now rewrite IH, orb_assoc.
Qed.

Lemma dict_set_fresh (k : string) (v : json) (d : dict) :
  dict_contains k d = false -> dict_set k v d = (d ++ [(k, v)])%list.
Proof.
  induction d as [|[k' v'] d IH]; simpl; [reflexivity|].
  intros H. apply orb_false_elim in H as [-> H]. now rewrite IH.
Qed.

Lemma unique_keys_middle (acc : dict) (k : string) (x : json) (d : dict) :
  unique_keys (acc ++ (k, x) :: d)%list = true -> dict_contains k acc = false.
Proof.
  induction acc as [|[k' v'] acc IH]; simpl; [reflexivity|].
  intros H. apply andb_prop in H as [H1 H2].
  rewrite IH by assumption. rewrite orb_false_r.
  rewrite dict_contains_app in H1. simpl in H1.
  rewrite String.eqb_sym.
  destruct (String.eqb k' k); [|reflexivity].
  now rewrite orb_true_r in H1.
Qed.

Lemma object_pairs_dumps (d : dict) :
  Forall (fun kv => round_trip (snd kv)) d ->
  forall k x acc n rest,
    round_trip x ->
    unique_keys (acc ++ (k, x) :: d)%list = true ->
    well_formed_members ((k, x) :: d) = true ->
    follow_ok rest = true ->
    (size_members ((k, x) :: d) <= n)%nat ->
    Json.object_pairs n acc
      (Json.escape_ascii k ++
       String dquote (": " ++ Json.dumps x ++ Json.iterencode_dict false d ++ "}" ++ rest))
    = Ok (JObj (acc ++ (k, x) :: d)%list, rest).
Proof.
  induction 1 as [|[k' y] d Hy Hd IH]; intros k x acc n rest Hx Hu Hwf Hrest Hn;
    simpl in Hwf, Hn; apply andb_prop in Hwf as [Hwx Hwf];
    (destruct n as [|n]; [lia|]);
    cbn [Json.object_pairs];
    rewrite scanstring_escape_ascii; cbn [Py.bind];
    change (": " ++ ?t) with (String ":" (String " " t));
    rewrite (skip_ws_not_ws ":") by reflexivity;
    change (Ascii.eqb ":" ":") with true; cbv iota;
    rewrite skip_ws_space, skip_ws_dumps;
    rewrite Hx by (trivial; lia); cbn [Py.bind];
    rewrite (dict_set_fresh k x acc) by (eapply unique_keys_middle; eassumption).
  - simpl. reflexivity.
  - cbn [Json.iterencode_dict]. unfold Json.encode_basestring_ascii.
    change ((", " ++ String dquote (Json.escape_ascii k' ++ String dquote "") ++ ": "
             ++ Json.dumps y ++ Json.iterencode_dict false d) ++ "}" ++ rest)
      with (String "," (String " " (String dquote
             (((Json.escape_ascii k' ++ String dquote "") ++ ": "
               ++ Json.dumps y ++ Json.iterencode_dict false d) ++ "}" ++ rest)))).
    rewrite (skip_ws_not_ws ",") by reflexivity.
    change (Ascii.eqb "," "}") with false. change (Ascii.eqb "," ",") with true.
    cbv iota. rewrite skip_ws_space.
    rewrite (skip_ws_not_ws dquote) by reflexivity.
    rewrite Ascii.eqb_refl.
    rewrite !append_assoc.
    change (String dquote "" ++ ?t) with (String dquote t).
    rewrite <- (append_assoc (Json.dumps y)).
    change (": " ++ ?t) with (String ":" (String " " t)) in IH.
    change (": " ++ ?t) with (String ":" (String " " t)).
    rewrite <- !append_assoc.
    rewrite !append_assoc.
    rewrite IH; trivial.
    + now rewrite <- app_assoc.
    + now rewrite <- app_assoc.
    + simpl. lia.
Qed.

Lemma scan_once_dumps (v : json) : round_trip v.
Proof.
  induction v as [| b | z | s | l IHl | d IHd] using json_ind;
    intros n rest Hwf Hrest Hn.
  - destruct n as [|n]; [simpl in Hn; lia | reflexivity].
  - destruct n as [|n]; [simpl in Hn; lia | destruct b; reflexivity].
  - destruct n as [|n]; [simpl in Hn; lia | now apply scan_once_int].
  - destruct n as [|n]; [simpl in Hn; lia|].
    cbn [Json.dumps]. unfold Json.encode_basestring_ascii.
    change (String dquote ?a ++ rest) with (String dquote (a ++ rest)).
    cbn [Json.scan_once]. rewrite Ascii.eqb_refl, append_assoc.
    change (String dquote "" ++ rest) with (String dquote rest).
    now rewrite scanstring_escape_ascii.
  - rewrite size_arr in Hn. destruct n as [|n]; [lia|].
    destruct l as [|x l]; [reflexivity|].
    rewrite dumps_arr_cons. inversion IHl as [|? ? Hx Hl]; subst.
    change (("[" ++ ?a) ++ rest) with (String "[" (a ++ rest)).
    cbn [Json.scan_once].
    change (Ascii.eqb "[" dquote) with false. change (Ascii.eqb "[" "{") with false.
    change (Ascii.eqb "[" "[") with true. cbv iota.
    cbn [Json.iterencode_list]. change ("" ++ ?a) with a.
    rewrite !append_assoc, skip_ws_dumps.
    destruct (dumps_head x) as (c & t & E & Hc).
    destruct (value_start_not c Hc) as (_ & Hc1 & _).
    pose proof (array_values_dumps l Hl x [] n rest Hx Hwf Hrest (le_S_n _ _ Hn)) as H.
    rewrite E in *. change (String c t ++ ?a) with (String c (t ++ a)) in *.
    cbv iota. rewrite Hc1. exact H.
  - rewrite size_obj in Hn. rewrite well_formed_obj in Hwf.
    apply andb_prop in Hwf as [Hu Hwf].
    destruct n as [|n]; [lia|].
    destruct d as [|[k x] d]; [reflexivity|].
    rewrite dumps_obj_cons. inversion IHd as [|? ? Hx Hd]; subst. simpl in Hx.
    change (("{" ++ ?a) ++ rest) with (String "{" (a ++ rest)).
    cbn [Json.scan_once].
    change (Ascii.eqb "{" dquote) with false. change (Ascii.eqb "{" "{") with true.
    cbv iota.
    cbn [Json.iterencode_dict]. unfold Json.encode_basestring_ascii.
    change ("" ++ ?a) with a.
    rewrite !append_assoc.
    change (String dquote ?a ++ ?b) with (String dquote (a ++ b)).
    rewrite (skip_ws_not_ws dquote) by reflexivity.
    change (Ascii.eqb dquote "}") with false. rewrite Ascii.eqb_refl. cbv iota.
    rewrite !append_assoc.
    change (String dquote "" ++ ?t) with (String dquote t).
    exact (object_pairs_dumps d Hd k x [] n rest Hx Hu Hwf Hrest (le_S_n _ _ Hn)).
Qed.

Lemma size_le_length (v : json) : (size v <= String.length (Json.dumps v))%nat.
Proof.
  induction v as [| b | z | s | l IHl | d IHd] using json_ind.
  - simpl; lia.
  - destruct b; simpl; lia.
  - destruct (int_repr_head z) as (c & t & E & _). simpl. rewrite E. simpl. lia.
  - simpl. lia.
  - rewrite size_arr. destruct l as [|x l]; [simpl; lia|].
    rewrite dumps_arr_cons. inversion IHl as [|? ? Hx Hl]; subst.
    cbn [Json.iterencode_list String.length append]. rewrite !length_append.
    assert (H : (size_list l <= String.length (Json.iterencode_list false l))%nat).
    { clear - Hl. induction Hl as [|y l Hy Hl IH]; simpl; [lia|].
      rewrite !length_append. lia. }
    simpl. lia.
  - rewrite size_obj. destruct d as [|[k x] d]; [simpl; lia|].
    rewrite dumps_obj_cons. inversion IHd as [|? ? Hx Hd]; subst. simpl in Hx.
    cbn [Json.iterencode_dict String.length append].
    unfold Json.encode_basestring_ascii.
    repeat (rewrite !length_append; cbn [String.length append]).
    assert (H : (size_members d <= String.length (Json.iterencode_dict false d))%nat).
    { clear - Hd. induction Hd as [|[k' y] d Hy Hd IH]; simpl; [lia|].
      simpl in Hy. unfold Json.encode_basestring_ascii.
      repeat (rewrite !length_append; cbn [String.length append]). lia. }
    simpl. lia.
Qed.

Lemma decode_dumps (v : json) :
  well_formed v = true -> Json.decode (Json.dumps v) = Ok v.
Proof.
  intros Hwf. unfold Json.decode.
  pose proof (skip_ws_dumps v "") as Hs. rewrite append_nil_r in Hs.
  pose proof (scan_once_dumps v (Json.enough_depth (Json.dumps v)) "" Hwf eq_refl) as H.
  rewrite append_nil_r in H. rewrite Hs, H; [reflexivity|].
  pose proof (size_le_length v). unfold Json.enough_depth. lia.
Qed.

(* ================================================================== *)
(** ** The decoder is total and its values are Python values *)

(** Case analysis along the head matches of a hypothesis. *)
Ltac break_head H :=
  repeat (unfold Py.bind in H;
          match type of H with
          | match (match ?y with _ => _ end) with _ => _ end = _ =>
              let E := fresh "E" in destruct y eqn:E
          | match ?x with _ => _ end = _ =>
              let E := fresh "E" in destruct x eqn:E
          end);
  try discriminate H.

Lemma skip_ws_length (s : string) :
  (String.length (Json.skip_ws s) <= String.length s)%nat.
Proof.
  induction s as [|c s IH]; simpl; [lia|].
  destruct (Json.is_ws c); simpl; lia.
Qed.

Lemma scanstring_length (n : nat) :
  forall s x r, (String.length s <= n)%nat ->
    Json.scanstring s = Ok (x, r) -> (String.length r < String.length s)%nat.
Proof.
  induction n as [|n IH]; intros s x r Hn H.
  - destruct s; [discriminate H | simpl in Hn; lia].
  - destruct s as [|c s]; [discriminate H|].
    simpl in Hn. cbn [Json.scanstring] in H. break_head H;
      injection H as <- <-; simpl;
      try match goal with
          | E : Json.scanstring ?t = Ok (_, ?r') |- _ =>
              apply IH in E; [simpl in *; lia | simpl in *; lia]
          end.
    lia.
Qed.

Lemma scanstring_no_recursion (s : string) :
  Json.scanstring s <> Raise RecursionError.
Proof.
  assert (H : forall n s, (String.length s <= n)%nat ->
                          Json.scanstring s <> Raise RecursionError).
  { clear s. induction n as [|n IH]; intros s Hn H.
    - destruct s; [discriminate H | simpl in Hn; lia].
    - destruct s as [|c s]; [discriminate H|].
      simpl in Hn. cbn [Json.scanstring] in H. break_head H;
        match goal with
        | E : Json.scanstring ?t = Raise _ |- _ =>
            injection H as ->; apply IH in E; [exact E | simpl in *; lia]
        end. }
  exact (H _ s (le_n _)).
Qed.

Lemma span_digits_length (s ds r : string) :
  Json.span_digits s = (ds, r) -> (String.length r <= String.length s)%nat.
Proof.
  revert ds r. induction s as [|c s IH]; intros ds r H; simpl in H.
  - injection H as <- <-. simpl. lia.
  - destruct (Json.is_digit c).
    + destruct (Json.span_digits s) as [ds' r'] eqn:E.
      injection H as <- <-. specialize (IH _ _ eq_refl). simpl. lia.
    + injection H as <- <-. lia.
Qed.

Lemma match_integer_length (s i r : string) :
  Json.match_integer s = Some (i, r) -> (String.length r < String.length s)%nat.
Proof.
  unfold Json.match_integer. intros H.
  assert (Hd : forall sign t, 
    match t with
    | "" => None
    | String c r0 =>
        if Ascii.eqb c "0" then Some (sign ++ "0", r0)
        else if Json.is_digit c
             then let '(ds, rest) := Json.span_digits r0 in Some (sign ++ String c ds, rest)
             else None
    end = Some (i, r) -> (String.length r < String.length t)%nat).
  { intros sign [|c t] Ht; [discriminate Ht|].
    destruct (Ascii.eqb c "0"); [injection Ht as <- <-; simpl; lia|].
    destruct (Json.is_digit c); [|discriminate Ht].
    destruct (Json.span_digits t) as [ds r'] eqn:E.
    injection Ht as <- <-. apply span_digits_length in E. simpl. lia. }
  destruct s as [|c s]; [discriminate H|].
  destruct (Ascii.eqb c "-").
  - apply Hd in H. simpl. lia.
  - apply (Hd "" (String c s)) in H. exact H.
Qed.

Lemma scan_number_ok (s : string) (v : json) (r : string) :
  Json.scan_number s = Ok (v, r) ->
  (exists z, v = JInt z) /\ (String.length r < String.length s)%nat.
Proof.
  unfold Json.scan_number, Json.parse_int. intros H.
  destruct (Json.match_integer s) as [[i r']|] eqn:E.
  - apply match_integer_length in E. break_head H.
    injection H as <- <-. split; [eauto | exact E].
  - break_head H.
Qed.

Lemma scan_number_no_recursion (s : string) :
  Json.scan_number s <> Raise RecursionError.
Proof.
  unfold Json.scan_number, Json.parse_int. intros H. break_head H.
Qed.

Ltac skip_ws_facts :=
  repeat match goal with
  | H : context [Json.skip_ws ?a] |- _ =>
      lazymatch goal with
      | _ : (String.length (Json.skip_ws a) <= String.length a)%nat |- _ => fail
      | _ => pose proof (skip_ws_length a)
      end
  end;
  repeat match goal with
  | E : Json.skip_ws ?a = String _ _ |- _ => rewrite E in *; clear E
  | E : Json.skip_ws ?a = EmptyString |- _ => rewrite E in *; clear E
  end.

Ltac scanstring_facts :=
  repeat match goal with
  | E : Json.scanstring _ = Ok _ |- _ =>
      apply (scanstring_length _ _ _ _ (le_n _)) in E
  end.

Lemma scan_length (n : nat) :
  (forall s v r, Json.scan_once n s = Ok (v, r) ->
                 (String.length r < String.length s)%nat) /\
  (forall pairs s v r, Json.object_pairs n pairs s = Ok (v, r) ->
                 (String.length r < String.length s)%nat) /\
  (forall values s v r, Json.array_values n values s = Ok (v, r) ->
                 (String.length r < String.length s)%nat).
Proof.
  induction n as [|n (IHs & IHo & IHa)];
    [repeat split; intros; discriminate|].
  repeat split.
  - intros s v r H. destruct s as [|c s]; [discriminate H|].
    cbn [Json.scan_once] in H. break_head H;
      try (apply IHo in H); try (apply IHa in H);
      try (apply scan_number_ok in H as [_ H]; exact H);
      try (injection H as <- <-);
      try match goal with
          | E : startswith _ _ = true |- _ =>
              clear E;
              repeat match goal with
                     | |- context [match ?t with EmptyString => _ | String _ _ => _ end] =>
                         destruct t
                     end; simpl; lia
          end;
      scanstring_facts; skip_ws_facts; simpl in *; lia.
  - intros pairs s v r H. cbn [Json.object_pairs] in H. break_head H;
      try (apply IHo in H); try (injection H as <- <-);
      repeat match goal with
             | E : Json.scan_once _ _ = Ok _ |- _ => apply IHs in E
             end;
      scanstring_facts; skip_ws_facts; simpl in *; lia.
  - intros values s v r H. cbn [Json.array_values] in H. break_head H;
      try (apply IHa in H); try (injection H as <- <-);
      repeat match goal with
             | E : Json.scan_once _ _ = Ok _ |- _ => apply IHs in E
             end;
      scanstring_facts; skip_ws_facts; simpl in *; lia.
Qed.

Lemma scan_no_recursion (n : nat) :
  (forall s, (2 * String.length s + 1 <= n)%nat ->
             Json.scan_once n s <> Raise RecursionError) /\
  (forall pairs s, (2 * String.length s + 1 <= n)%nat ->
             Json.object_pairs n pairs s <> Raise RecursionError) /\
  (forall values s, (2 * String.length s + 2 <= n)%nat ->
             Json.array_values n values s <> Raise RecursionError).
Proof.
  induction n as [|n (IHs & IHo & IHa)]; [repeat split; intros; lia|].
  destruct (scan_length n) as (Ls & Lo & La).
  repeat split.
  - intros s Hn H. destruct s as [|c s]; [discriminate H|].
    cbn [Json.scan_once] in H. break_head H;
      try (now apply scanstring_no_recursion in E0);
      try (now apply scan_number_no_recursion in H);
      try (injection H as ->);
      try match goal with
          | E : Json.scanstring _ = Raise RecursionError |- _ =>
              now apply scanstring_no_recursion in E
          end;
      (apply IHo in H || apply IHa in H); trivial;
      skip_ws_facts; simpl in *; lia.
  - intros pairs s Hn H. cbn [Json.object_pairs] in H. break_head H;
      try (injection H as ->);
      try match goal with
          | E : Json.scanstring _ = Raise RecursionError |- _ =>
              now apply scanstring_no_recursion in E
          end;
      repeat match goal with
             | E : Json.scan_once _ _ = Ok _ |- _ => apply Ls in E
             end;
      try match goal with
          | E : Json.scan_once _ _ = Raise RecursionError |- _ =>
              apply IHs in E; trivial
          end;
      try (apply IHo in H; trivial);
      scanstring_facts; skip_ws_facts; simpl in *; lia.
  - intros values s Hn H. cbn [Json.array_values] in H. break_head H;
      try (injection H as ->);
      repeat match goal with
             | E : Json.scan_once _ _ = Ok _ |- _ => apply Ls in E
             end;
      try match goal with
          | E : Json.scan_once _ _ = Raise RecursionError |- _ =>
              apply IHs in E; trivial
          end;
      try (apply IHa in H; trivial);
      skip_ws_facts; simpl in *; lia.
Qed.

(** The decoder never runs out of depth: [RecursionError] is not an answer
    of [decode]. *)
Lemma decode_no_recursion (s : string) : Json.decode s <> Raise RecursionError.
Proof.
  unfold Json.decode. intros H.
  destruct (scan_no_recursion (Json.enough_depth s)) as (Hs & _ & _).
  break_head H. injection H as ->.
  apply Hs in E; trivial.
  pose proof (skip_ws_length s). unfold Json.enough_depth. lia.
Qed.

Lemma dict_contains_set (k k' : string) (v : json) (d : dict) :
  dict_contains k' (dict_set k v d) = String.eqb k' k || dict_contains k' d.
Proof.
  induction d as [|[k0 v0] d IH]; simpl.
  - reflexivity.
  - destruct (String.eqb k k0) eqn:E; simpl.
    + apply String.eqb_eq in E. subst k0.
      now destruct (String.eqb k' k).
    + rewrite IH. now destruct (String.eqb k' k0), (String.eqb k' k).
Qed.

Lemma unique_keys_set (k : string) (v : json) (d : dict) :
  unique_keys d = true -> unique_keys (dict_set k v d) = true.
Proof.
  induction d as [|[k0 v0] d IH]; simpl; [reflexivity|].
  intros H. apply andb_prop in H as [H1 H2].
  destruct (String.eqb k k0) eqn:E; simpl.
  - now rewrite H1, H2.
  - rewrite dict_contains_set, IH by assumption.
    rewrite String.eqb_sym, E. simpl. now rewrite H1.
Qed.

Lemma well_formed_members_set (k : string) (v : json) (d : dict) :
  well_formed v = true -> well_formed_members d = true ->
  well_formed_members (dict_set k v d) = true.
Proof.
  intros Hv. induction d as [|[k0 v0] d IH]; simpl.
  - now rewrite Hv.
  - intros H. apply andb_prop in H as [H1 H2].
    destruct (String.eqb k k0); simpl.
    + now rewrite Hv, H2.
    + now rewrite H1, IH.
Qed.

Lemma well_formed_set (k : string) (v : json) (d : dict) :
  well_formed v = true -> well_formed (JObj d) = true ->
  well_formed (JObj (dict_set k v d)) = true.
Proof.
  rewrite !well_formed_obj. intros Hv H. apply andb_prop in H as [H1 H2].
  now rewrite unique_keys_set, well_formed_members_set.
Qed.

Lemma forallb_rev {A : Type} (f : A -> bool) (l : list A) :
  forallb f (List.rev l) = forallb f l.
Proof.
  induction l as [|x l IH]; simpl; [reflexivity|].
  rewrite forallb_app, IH. simpl. rewrite andb_true_r. apply andb_comm.
Qed.

Lemma scan_well_formed (n : nat) :
  (forall s v r, Json.scan_once n s = Ok (v, r) -> well_formed v = true) /\
  (forall pairs s v r, well_formed (JObj pairs) = true ->
     Json.object_pairs n pairs s = Ok (v, r) -> well_formed v = true) /\
  (forall values s v r, forallb well_formed values = true ->
     Json.array_values n values s = Ok (v, r) -> well_formed v = true).
Proof.
  induction n as [|n (IHs & IHo & IHa)];
    [repeat split; intros; discriminate|].
  repeat split.
  - intros s v r H. destruct s as [|c s]; [discriminate H|].
    cbn [Json.scan_once] in H. break_head H;
      try (apply scan_number_ok in H as [[z ->] _]; reflexivity);
      try (injection H as <- <-; reflexivity);
      try (eapply IHo in H; trivial); try (eapply IHa in H; trivial).
  - intros pairs s v r Hp H. cbn [Json.object_pairs] in H. break_head H;
      match goal with
      | E : Json.scan_once _ _ = Ok (?x, _) |- _ => apply IHs in E
      end.
    + injection H as <- <-. now apply well_formed_set.
    + eapply IHo in H; trivial. now apply well_formed_set.
  - intros values s v r Hv H. cbn [Json.array_values] in H. break_head H;
      match goal with
      | E : Json.scan_once _ _ = Ok (?x, _) |- _ => apply IHs in E
      end.
    + injection H as <- <-.
      change (well_formed (JArr ?l)) with (forallb well_formed l).
      rewrite ?forallb_app, ?forallb_rev. simpl. now rewrite E, Hv.
    + eapply IHa in H; trivial. simpl. now rewrite E, Hv.
Qed.

(** A decoded value stands for a Python value. *)
Lemma decode_well_formed (s : string) (v : json) :
  Json.decode s = Ok v -> well_formed v = true.
Proof.
  unfold Json.decode. intros H. break_head H. injection H as <-.
  destruct (scan_well_formed (Json.enough_depth s)) as (Hs & _ & _).
  now apply Hs in E.
Qed.

(* ================================================================== *)
(** ** The callbacks *)

Lemma fake_status_cons (c : ascii) (g : string) (context : context) :
  fake_status (String c g) context =
  Ok (if Ascii.eqb c "9" then Context 503 (Some "mock server error test")
      else if Ascii.eqb c "8" then Context 404 (Some "mock client error test")
      else context).
Proof.
  unfold fake_status. simpl.
  destruct (Ascii.eqb c "9") eqn:E9; [|reflexivity].
  apply Ascii.eqb_eq in E9. subst c. reflexivity.
Qed.

Lemma fake_status_fresh (c : ascii) (g : string) :
  fake_status (String c g) fresh_context =
  Ok (Context (spec_status c) (spec_reason c)).
Proof.
  rewrite fake_status_cons. unfold spec_status, spec_reason, fresh_context.
  now destruct (Ascii.eqb c "9"), (Ascii.eqb c "8").
Qed.

Lemma fake_status_empty (context : context) :
  fake_status "" context = Raise IndexError.
Proof. reflexivity. Qed.

Lemma respond_read (c : ascii) (g : string) (req : request) :
  path req = "/guid/" ++ String c g ->
  respond read_callback req =
  Ok (Response (spec_status c) (spec_reason c)
               (Json.dumps (JObj (spec_read_body (String c g))))).
Proof.
  intros Hp. unfold respond, read_callback. rewrite Hp.
  change (slice_from 6 ("/guid/" ++ String c g)) with (String c g).
  rewrite fake_status_fresh. reflexivity.
Qed.

Lemma respond_delete (c : ascii) (g : string) (req : request) :
  path req = "/guid/" ++ String c g ->
  respond delete_callback req = Ok (Response (spec_status c) (spec_reason c) "").
Proof.
  intros Hp. unfold respond, delete_callback. rewrite Hp.
  change (slice_from 6 ("/guid/" ++ String c g)) with (String c g).
  rewrite fake_status_fresh. reflexivity.
Qed.

(** The GUID that [create_update_callback] settles on. *)
Lemma resolved_guid_path (g : string) :
  (if 5 <? len ("/guid/" ++ g) then slice_from 6 ("/guid/" ++ g) else placeholder_guid)%Z = g.
Proof.
  unfold len. simpl String.length.
  destruct (5 <? _)%Z eqn:E; [reflexivity|].
  apply Z.ltb_ge in E. lia.
Qed.

(** [create_update_callback] on a body that decodes to a dict. *)
Lemma create_update_object (req : request) (context : context) (d : dict) :
  Json.loads (text req) = Ok (JObj d) ->
  create_update_callback req context =
  (let guid := if (5 <? len (path req))%Z then slice_from 6 (path req)
               else placeholder_guid in
   Py.bind (fake_status guid context) (fun context' =>
     Ok (Json.dumps (JObj (spec_create_update_body guid d)), context'))).
Proof.
  intros Hl. unfold create_update_callback. rewrite Hl. cbn [Py.bind py_contains].
  unfold spec_create_update_body, fill_missing.
  destruct (dict_contains "expire" d) eqn:He; cbn [negb py_setitem Py.bind py_contains].
  - destruct (dict_contains "user" d) eqn:Hu; cbn [negb py_setitem Py.bind]; reflexivity.
  - destruct (dict_contains "user" (dict_set "expire" (JStr "999999999999") d)) eqn:Hu;
      cbn [negb py_setitem Py.bind]; reflexivity.
Qed.

(** A body that decodes to anything but a dict: the callback raises
    [TypeError] and builds no response. *)
Lemma create_update_not_object (req : request) (context : context) (v : json) :
  Json.loads (text req) = Ok v ->
  (forall d, v <> JObj d) ->
  create_update_callback req context = Raise TypeError.
Proof.
  intros Hl Hv. unfold create_update_callback. rewrite Hl. cbn [Py.bind].
  destruct v as [| b | z | s | l | d]; try reflexivity;
    try (now elim (Hv d));
    cbn [py_contains Py.bind];
    repeat (match goal with
            | |- context [negb ?b] => destruct b
            end; cbn [negb py_setitem py_contains Py.bind]; try reflexivity).
Qed.

Lemma dict_get_set (k k' : string) (v : json) (d : dict) :
  dict_get k' (dict_set k v d) = if String.eqb k' k then Some v else dict_get k' d.
Proof.
  induction d as [|[k0 v0] d IH]; simpl.
  - reflexivity.
  - destruct (String.eqb k k0) eqn:E; simpl.
    + apply String.eqb_eq in E. subst k0. now destruct (String.eqb k' k).
    + rewrite IH. destruct (String.eqb k' k0) eqn:E0; [|reflexivity].
      apply String.eqb_eq in E0. subst k0. now rewrite String.eqb_sym, E.
Qed.

Lemma dict_contains_get (k : string) (d : dict) :
  dict_contains k d = match dict_get k d with Some _ => true | None => false end.
Proof.
  induction d as [|[k0 v0] d IH]; simpl; [reflexivity|].
  now destruct (String.eqb k k0).
Qed.

Lemma well_formed_fill (key placeholder : string) (d : dict) :
  well_formed (JObj d) = true ->
  well_formed (JObj (fill_missing key placeholder d)) = true.
Proof.
  intros H. unfold fill_missing.
  destruct (dict_contains key d); [exact H | now apply well_formed_set].
Qed.

Lemma well_formed_spec_body (guid : string) (d : dict) :
  well_formed (JObj d) = true ->
  well_formed (JObj (spec_create_update_body guid d)) = true.
Proof.
  intros H. unfold spec_create_update_body.
  apply well_formed_set; [reflexivity|]. now do 2 apply well_formed_fill.
Qed.

Lemma loads_well_formed (t : option string) (v : json) :
  Json.loads t = Ok v -> well_formed v = true.
Proof. destruct t; [apply decode_well_formed | discriminate]. Qed.

(** Every response of [create_update_callback] comes from a body that
    decodes to a dict and from a GUID with a first character. *)
Lemma respond_create_update_inv (req : request) (r : response) :
  respond create_update_callback req = Ok r ->
  exists d c g,
    Json.loads (text req) = Ok (JObj d) /\
    (if (5 <? len (path req))%Z then slice_from 6 (path req) else placeholder_guid)
      = String c g /\
    r = Response (spec_status c) (spec_reason c)
                 (Json.dumps (JObj (spec_create_update_body (String c g) d))).
Proof.
  intros H. unfold respond in H.
  destruct (Json.loads (text req)) as [v | e |] eqn:Hl.
  - destruct v as [| b | z | s | l | d];
      try (rewrite (create_update_not_object _ _ _ Hl) in H by discriminate;
           discriminate H).
    rewrite (create_update_object _ _ _ Hl) in H. cbv zeta in H.
    destruct (if (5 <? len (path req))%Z then _ else _) as [|c g] eqn:Hg.
    + discriminate H.
    + rewrite fake_status_fresh in H. cbn [Py.bind] in H.
      injection H as <-. now exists d, c, g.
  - unfold create_update_callback in H. rewrite Hl in H. discriminate H.
  - unfold create_update_callback in H. rewrite Hl in H. discriminate H.
Qed.

Lemma respond_create_update (req : request) (d : dict) (c : ascii) (g : string) :
  Json.loads (text req) = Ok (JObj d) ->
  (if (5 <? len (path req))%Z then slice_from 6 (path req) else placeholder_guid)
    = String c g ->
  respond create_update_callback req =
  Ok (Response (spec_status c) (spec_reason c)
               (Json.dumps (JObj (spec_create_update_body (String c g) d)))).
Proof.
  intros Hl Hg. unfold respond.
  rewrite (create_update_object _ _ _ Hl). cbv zeta. rewrite Hg.
  rewrite fake_status_fresh. reflexivity.
Qed.

Lemma resolved_guid_bare (req : request) :
  path req = "/guid" ->
  (if (5 <? len (path req))%Z then slice_from 6 (path req) else placeholder_guid)
    = placeholder_guid.
Proof. intros ->. reflexivity. Qed.

Lemma resolved_guid_segment (req : request) (g : string) :
  path req = "/guid/" ++ g ->
  (if (5 <? len (path req))%Z then slice_from 6 (path req) else placeholder_guid) = g.
Proof. intros ->. apply resolved_guid_path. Qed.

(* ================================================================== *)
(** ** C1: the status rule *)

(** C1. For a request whose path is [/guid/<id>] with a first character
    [c], READ and DELETE answer with the status the rule gives for [c]
    (503 for ['9'], 404 for ['8'], 200 otherwise) and with the matching
    reason; CREATE/UPDATE does the same for the GUID of the path whenever
    the body decodes to a dict, and for the placeholder GUID (status 200)
    on the bare path; and every response that CREATE/UPDATE builds carries
    the status of the first character of the GUID it settled on. *)
Theorem status_rule (req : request) (c : ascii) (g : string) :
  path req = "/guid/" ++ String c g ->
  (exists body, respond read_callback req
                = Ok (Response (spec_status c) (spec_reason c) body)) /\
  (exists body, respond delete_callback req
                = Ok (Response (spec_status c) (spec_reason c) body)) /\
  (forall d, Json.loads (text req) = Ok (JObj d) ->
     exists body, respond create_update_callback req
                  = Ok (Response (spec_status c) (spec_reason c) body)) /\
  (forall r, respond create_update_callback req = Ok r ->
     resp_status_code r = spec_status c /\ resp_reason r = spec_reason c) /\
  (forall req' r', respond create_update_callback req' = Ok r' ->
     exists c' g',
       (if (5 <? len (path req'))%Z then slice_from 6 (path req') else placeholder_guid)
         = String c' g' /\
       resp_status_code r' = spec_status c') /\
  (forall req' d, path req' = "/guid" -> Json.loads (text req') = Ok (JObj d) ->
     exists body, respond create_update_callback req'
                  = Ok (Response (spec_status "7") (spec_reason "7") body)).
Proof.
  intros Hp. split; [|split; [|split; [|split; [|split]]]].
  - eexists. exact (respond_read c g req Hp).
  - eexists. exact (respond_delete c g req Hp).
  - intros d Hl. eexists.
    exact (respond_create_update req d c g Hl (resolved_guid_segment _ _ Hp)).
  - intros r H.
    apply respond_create_update_inv in H as (d & c' & g' & _ & Hg & ->).
    rewrite (resolved_guid_segment _ _ Hp) in Hg. injection Hg as Hc Hg'.
    subst. split; reflexivity.
  - intros req' r' H.
    apply respond_create_update_inv in H as (d & c' & g' & _ & Hg & ->).
    now exists c', g'.
  - intros req' d Hp' Hl. eexists.
    exact (respond_create_update req' d "7" "7777777777777" Hl
             (resolved_guid_bare _ Hp')).
Qed.

Lemma status_rule_witness :
  let req := Request GET "mock://test.net/guid/9A" "/guid/9A" "" [] None in
  path req = "/guid/" ++ String "9" "A" /\
  exists body, respond read_callback req = Ok (Response 503 (Some "mock server error test") body).
Proof.
  split; [reflexivity|].
  exact (proj1 (status_rule (Request GET "mock://test.net/guid/9A" "/guid/9A" "" [] None)
                            "9" "A" eq_refl)).
Defined.

Lemma respond_read_inv (req : request) (r : response) :
  respond read_callback req = Ok r ->
  exists c g,
    slice_from 6 (path req) = String c g /\
    r = Response (spec_status c) (spec_reason c)
                 (Json.dumps (JObj (spec_read_body (String c g)))).
Proof.
  unfold respond, read_callback. intros H.
  destruct (slice_from 6 (path req)) as [|c g] eqn:Hg; [discriminate H|].
  rewrite fake_status_fresh in H. cbn [Py.bind] in H.
  injection H as <-. now exists c, g.
Qed.

Lemma respond_delete_inv (req : request) (r : response) :
  respond delete_callback req = Ok r ->
  exists c g,
    slice_from 6 (path req) = String c g /\
    r = Response (spec_status c) (spec_reason c) "".
Proof.
  unfold respond, delete_callback. intros H.
  destruct (slice_from 6 (path req)) as [|c g] eqn:Hg; [discriminate H|].
  rewrite fake_status_fresh in H. cbn [Py.bind] in H.
  injection H as <-. now exists c, g.
Qed.

Lemma escape_char_plain (c : ascii) :
  plain_char c = true -> Json.escape_char c = String c "".
Proof. each_char c; intros H; try discriminate H; reflexivity. Qed.

Lemma escape_ascii_plain (s : string) :
  all_chars plain_char s = true -> Json.escape_ascii s = s.
Proof.
  induction s as [|c s IH]; simpl; [reflexivity|].
  intros H. apply andb_prop in H as [Hc Hs].
  now rewrite escape_char_plain, IH.
Qed.

Lemma encode_plain (s : string) :
  all_chars plain_char s = true -> Json.encode_basestring_ascii s = quoted s.
Proof.
  intros H. unfold Json.encode_basestring_ascii, quoted.
  now rewrite escape_ascii_plain.
Qed.

Lemma slice_from_nil (n : nat) (s : string) :
  slice_from n s = "" <-> (String.length s <= n)%nat.
Proof.
  revert s. induction n as [|n IH]; intros [|c s]; simpl.
  - split; auto.
  - split; [discriminate | lia].
  - split; [lia | reflexivity].
  - rewrite IH. lia.
Qed.

Lemma resolved_guid_cases (p : string) :
  (String.length p = 6%nat /\
   (if 5 <? len p then slice_from 6 p else placeholder_guid) = "") \/
  (String.length p <> 6%nat /\
   exists c g, (if 5 <? len p then slice_from 6 p else placeholder_guid) = String c g).
Proof.
  unfold len. destruct (5 <? Z.of_nat (String.length p)) eqn:E.
  - apply Z.ltb_lt in E.
    destruct (slice_from 6 p) as [|c g] eqn:Es.
    + left. apply slice_from_nil in Es. split; [lia | reflexivity].
    + right. split; [|eauto]. intros H.
      assert (Hn : slice_from 6 p = "") by (apply slice_from_nil; lia).
      rewrite Hn in Es. discriminate Es.
  - apply Z.ltb_ge in E. right. split; [lia|]. now exists "7"%char, "7777777777777".
Qed.

(* ================================================================== *)
(** ** C2: response bodies and JSON *)




(* ================================================================== *)
(** ** C4: the body of READ *)

(** C4. READ on the path [/guid/<id>], [<id>] not empty, answers with the
    body [json.dumps] gives for the object with [guid] set to [<id>],
    [expire] to ["1234123123123"] and [user] to ["foo"], in this order:
    the body decodes to exactly this object, and it is the literal text
    below when [<id>] needs no escape; the status is the one of the first
    character of [<id>], whatever it is. *)
Theorem read_body (req : request) (id : string) :
  path req = "/guid/" ++ id ->
  id <> "" ->
  exists r c g,
    respond read_callback req = Ok r /\
    id = String c g /\
    resp_status_code r = spec_status c /\
    resp_text r = Json.dumps (JObj (spec_read_body id)) /\
    Json.decode (resp_text r) = Ok (JObj (spec_read_body id)) /\
    (all_chars plain_char id = true ->
       resp_text r =
       "{" ++ quoted "guid" ++ ": " ++ quoted id ++ ", "
           ++ quoted "expire" ++ ": " ++ quoted "1234123123123" ++ ", "
           ++ quoted "user" ++ ": " ++ quoted "foo" ++ "}").
Proof.
  intros Hp Hid. destruct id as [|c g]; [now elim Hid|].
  eexists; exists c, g. split; [exact (respond_read c g req Hp)|].
  cbn [resp_text]. repeat split.
  - now apply decode_dumps.
  - intros Hplain. unfold spec_read_body. rewrite dumps_obj_cons.
    cbn [Json.iterencode_dict Json.dumps].
    rewrite (encode_plain (String c g)) by assumption.
    rewrite !encode_plain by reflexivity.
    repeat (first [rewrite !append_assoc | progress cbn [append]]). reflexivity.
Qed.

Lemma read_body_witness :
  exists r, respond read_callback
              (Request GET "mock://test.net/guid/9AAAAAAAAAAAAAAAAAAAAAAAAAAAAAAA"
                       "/guid/9AAAAAAAAAAAAAAAAAAAAAAAAAAAAAAA" "" [] None) = Ok r
            /\ resp_status_code r = 503%Z
            /\ Json.decode (resp_text r)
               = Ok (JObj (spec_read_body "9AAAAAAAAAAAAAAAAAAAAAAAAAAAAAAA")).
Proof.
  destruct (read_body
    (Request GET "mock://test.net/guid/9AAAAAAAAAAAAAAAAAAAAAAAAAAAAAAA"
             "/guid/9AAAAAAAAAAAAAAAAAAAAAAAAAAAAAAA" "" [] None)
    "9AAAAAAAAAAAAAAAAAAAAAAAAAAAAAAA" eq_refl ltac:(discriminate))
    as (r & c & g & Hr & Hid & Hs & _ & Hd & _).
  exists r. injection Hid as <- <-. now repeat split.
Defined.

(* ================================================================== *)
(** ** C6: the body of DELETE *)

(** C6. Every response of DELETE has the empty body; on the path
    [/guid/<id>] with first character [c] DELETE does answer, with the
    status of [c] (200, 404 or 503) and the empty body. *)
Theorem delete_body_empty (req : request) :
  (forall r, respond delete_callback req = Ok r -> resp_text r = "") /\
  (forall c g, path req = "/guid/" ++ String c g ->
     respond delete_callback req = Ok (Response (spec_status c) (spec_reason c) "")
     /\ (spec_status c = 200 \/ spec_status c = 404 \/ spec_status c = 503)%Z).
Proof.
  split.
  - intros r H. now apply respond_delete_inv in H as (c & g & _ & ->).
  - intros c g Hp. split; [exact (respond_delete c g req Hp)|].
    unfold spec_status. destruct (Ascii.eqb c "9"), (Ascii.eqb c "8"); auto.
Qed.

Lemma delete_body_empty_witness :
  respond delete_callback
    (Request DELETE "mock://test.net/guid/8B" "/guid/8B" "" [] None)
  = Ok (Response 404 (Some "mock client error test") "").
Proof.
  exact (proj1 (proj2 (delete_body_empty
    (Request DELETE "mock://test.net/guid/8B" "/guid/8B" "" [] None))
    "8"%char "B" eq_refl)).
Defined.

(* ================================================================== *)
(** ** C3: the body of CREATE/UPDATE *)

(** C3, as stated, fails: a [guid] member that the caller supplies in the
    body is not echoed unchanged, the GUID of the request replaces it. *)
Lemma caller_guid_is_overwritten :
  let req := Request POST "mock://test.net/guid" "/guid" "" []
               (Some ("{" ++ quoted "guid" ++ ": " ++ quoted "X" ++ "}")) in
  Json.loads (text req) = Ok (JObj [("guid", JStr "X")]) /\
  exists r d,
    respond create_update_callback req = Ok r /\
    Json.decode (resp_text r) = Ok (JObj d) /\
    dict_get "guid" d = Some (JStr "77777777777777") /\
    dict_get "guid" d <> Some (JStr "X").
Proof.
  split; [reflexivity|].
  eexists; eexists. split; [reflexivity|].
  split; [vm_compute; reflexivity|].
  split; [reflexivity | discriminate].
Qed.

(** C3, amended. For a CREATE/UPDATE request on the bare path [/guid] or
    on [/guid/<id>] with a non-empty [<id>], whose body decodes to an
    object, the response body is the encoding of the input object with
    [expire] and [user] filled in with the fixed placeholders only when
    missing and with [guid] set to the GUID of the request (the path
    segment, or the placeholder on the bare path).  Every member that the
    caller supplies under a key other than [guid] is echoed unchanged, and
    no other member is added. *)
Theorem create_update_body (req : request) (d : dict) (guid : string) :
  Json.loads (text req) = Ok (JObj d) ->
  (path req = "/guid" /\ guid = placeholder_guid) \/
  (path req = "/guid/" ++ guid /\ guid <> "") ->
  exists r,
    respond create_update_callback req = Ok r /\
    resp_text r = Json.dumps (JObj (spec_create_update_body guid d)) /\
    Json.decode (resp_text r) = Ok (JObj (spec_create_update_body guid d)) /\
    dict_get "guid" (spec_create_update_body guid d) = Some (JStr guid) /\
    dict_get "expire" (spec_create_update_body guid d)
      = Some (match dict_get "expire" d with
              | Some v => v
              | None => JStr "999999999999"
              end) /\
    dict_get "user" (spec_create_update_body guid d)
      = Some (match dict_get "user" d with
              | Some v => v
              | None => JStr "mock generated"
              end) /\
    (forall k v, k <> "guid" -> dict_get k d = Some v ->
                 dict_get k (spec_create_update_body guid d) = Some v) /\
    (forall k, k <> "guid" -> k <> "user" -> k <> "expire" ->
               dict_get k (spec_create_update_body guid d) = dict_get k d).
Proof.
  intros Hl Hp.
  assert (Hg : exists c g,
             guid = String c g /\
             (if (5 <? len (path req))%Z then slice_from 6 (path req)
              else placeholder_guid) = String c g).
  { destruct Hp as [[Hp ->] | [Hp Hne]].
    - exists "7"%char, "7777777777777". split; [reflexivity|].
      now apply resolved_guid_bare.
    - destruct guid as [|c g]; [now elim Hne|]. exists c, g.
      split; [reflexivity|]. now apply resolved_guid_segment. }
  destruct Hg as (c & g & -> & Hg).
  eexists. split; [exact (respond_create_update req d c g Hl Hg)|].
  cbn [resp_text].
  assert (Hget : forall k,
    dict_get k (spec_create_update_body (String c g) d) =
    if String.eqb k "guid" then Some (JStr (String c g))
    else if String.eqb k "user"
         then Some (match dict_get "user" d with
                    | Some v => v | None => JStr "mock generated" end)
    else if String.eqb k "expire"
         then Some (match dict_get "expire" d with
                    | Some v => v | None => JStr "999999999999" end)
    else dict_get k d).
  { intros k. unfold spec_create_update_body, fill_missing.
    rewrite dict_get_set. destruct (String.eqb k "guid"); [reflexivity|].
    rewrite !dict_contains_get.
    destruct (dict_get "expire" d) as [ve|] eqn:He.
    - destruct (dict_get "user" d) as [vu|] eqn:Hu.
      + destruct (String.eqb k "user") eqn:Eu.
        { apply String.eqb_eq in Eu. subst k. exact Hu. }
        destruct (String.eqb k "expire") eqn:Ee; [|reflexivity].
        apply String.eqb_eq in Ee. subst k. exact He.
      + rewrite dict_get_set. destruct (String.eqb k "user"); [reflexivity|].
        destruct (String.eqb k "expire") eqn:Ee; [|reflexivity].
        apply String.eqb_eq in Ee. subst k. exact He.
    - rewrite (dict_get_set "expire" "user"). cbn [String.eqb Ascii.eqb Bool.eqb].
      destruct (dict_get "user" d) as [vu|] eqn:Hu.
      + rewrite dict_get_set.
        destruct (String.eqb k "user") eqn:Eu.
        { apply String.eqb_eq in Eu. subst k. exact Hu. }
        reflexivity.
      + rewrite !dict_get_set.
        destruct (String.eqb k "user"); reflexivity. }
  split; [reflexivity|].
  split; [apply decode_dumps, well_formed_spec_body; exact (loads_well_formed _ _ Hl)|].
  split; [now rewrite Hget|].
  split; [now rewrite Hget|].
  split; [now rewrite Hget|].
  split.
  - intros k v Hk Hv. rewrite Hget.
    destruct (String.eqb_spec k "guid") as [->|_]; [now elim Hk|].
    destruct (String.eqb_spec k "user") as [->|_]; [now rewrite Hv|].
    destruct (String.eqb_spec k "expire") as [->|_]; [now rewrite Hv|].
    exact Hv.
  - intros k Hg' Hu He. rewrite Hget.
    destruct (String.eqb_spec k "guid") as [->|_]; [now elim Hg'|].
    destruct (String.eqb_spec k "user") as [->|_]; [now elim Hu|].
    destruct (String.eqb_spec k "expire") as [->|_]; [now elim He|].
    reflexivity.
Qed.

(** The UPDATE of the specification's example: the body holds [expire]
    only, the response echoes it, fills in [user] and sets [guid]. *)
Lemma create_update_body_witness :
  exists r,
    respond create_update_callback
      (Request POST "mock://test.net/guid/7AAAAAAAAAAAAAAAAAAAAAAAAAAAAAAA"
         "/guid/7AAAAAAAAAAAAAAAAAAAAAAAAAAAAAAA" "" []
         (Some ("{" ++ quoted "expire" ++ ": " ++ quoted "2000000000" ++ "}")))
    = Ok r /\
    resp_status_code r = 200%Z /\
    Json.decode (resp_text r)
    = Ok (JObj [("expire", JStr "2000000000"); ("user", JStr "mock generated");
                ("guid", JStr "7AAAAAAAAAAAAAAAAAAAAAAAAAAAAAAA")]).
Proof.
  pose (req := Request POST "mock://test.net/guid/7AAAAAAAAAAAAAAAAAAAAAAAAAAAAAAA"
         "/guid/7AAAAAAAAAAAAAAAAAAAAAAAAAAAAAAA" "" []
         (Some ("{" ++ quoted "expire" ++ ": " ++ quoted "2000000000" ++ "}"))).
  assert (Hl : Json.loads (text req) = Ok (JObj [("expire", JStr "2000000000")]))
    by (vm_compute; reflexivity).
  assert (Hp : (path req = "/guid" /\ "7AAAAAAAAAAAAAAAAAAAAAAAAAAAAAAA" = placeholder_guid) \/
               (path req = "/guid/" ++ "7AAAAAAAAAAAAAAAAAAAAAAAAAAAAAAA"
                /\ "7AAAAAAAAAAAAAAAAAAAAAAAAAAAAAAA" <> ""))
    by (right; split; [reflexivity | discriminate]).
  destruct (create_update_body req _ _ Hl Hp) as (r & Hr & Ht & Hd & _).
  exists r. split; [exact Hr|]. split; [|exact Hd].
  vm_compute in Hr. injection Hr as <-. reflexivity.
Defined.

(* ================================================================== *)
(** ** C5: the three keys of READ and CREATE/UPDATE *)

(** The body the client sends with CREATE, as the mock decodes it. *)
Lemma create_request_body (args : Args.namespace) :
  Json.loads (call_data (create_request args)) =
  Ok (JObj (match Args.guid args with
            | None => [("user", py_str (Args.user args))]
            | Some _ => [("user", py_str (Args.user args));
                         ("expire", py_str (Args.expire args))]
            end)).
Proof.
  unfold create_request.
  destruct (Args.guid args); cbn [call_data Json.loads];
    apply decode_dumps;
    destruct (Args.user args), (Args.expire args); reflexivity.
Qed.

(** The body the client sends with UPDATE, as the mock decodes it. *)
Lemma update_request_body (args : Args.namespace) :
  Json.loads (call_data (update_request args)) =
  Ok (JObj [("expire", py_str (Args.expire args))]).
Proof.
  unfold update_request. cbn [call_data Json.loads].
  apply decode_dumps. destruct (Args.expire args); reflexivity.
Qed.

(** C5, as stated, fails on a request that the client builds: CREATE with
    a GUID and no [--expire] sends [expire] as JSON null, and the response
    echoes the null instead of a placeholder string. *)
Lemma null_expire_is_echoed :
  let args := Args.Namespace "mock://test.net"
                (Some "71111111111111111111111111111111") (Some "alice") None Create in
  let req := Request POST (call_url (create_request args))
               "/guid/71111111111111111111111111111111" "" []
               (call_data (create_request args)) in
  Args.expire args = None /\
  Json.loads (text req) = Ok (JObj [("user", JStr "alice"); ("expire", JNull)]) /\
  exists r d,
    respond create_update_callback req = Ok r /\
    Json.decode (resp_text r) = Ok (JObj d) /\
    dict_get "expire" d = Some JNull.
Proof.
  split; [reflexivity|]. split; [vm_compute; reflexivity|].
  eexists; eexists. split; [vm_compute; reflexivity|].
  split; [vm_compute; reflexivity | reflexivity].
Qed.

(** C5, amended. Every response body of READ and of CREATE/UPDATE decodes
    to an object that holds the three keys [guid], [user] and [expire].
    READ sets [user] and [expire] to its fixed placeholders.  CREATE/UPDATE
    sets each of them to its fixed placeholder whenever the request body
    has no member of that name, and echoes the member otherwise, a JSON
    null included.  The client's CREATE without a GUID sends [user] alone;
    its CREATE with a GUID sends [user] and [expire] both, [expire] as
    null when it was not given. *)
Theorem three_keys (req : request) (r : response) :
  (respond read_callback req = Ok r ->
     exists d,
       Json.decode (resp_text r) = Ok (JObj d) /\
       dict_contains "guid" d = true /\
       dict_get "user" d = Some (JStr "foo") /\
       dict_get "expire" d = Some (JStr "1234123123123")) /\
  (respond create_update_callback req = Ok r ->
     exists d0 d,
       Json.loads (text req) = Ok (JObj d0) /\
       Json.decode (resp_text r) = Ok (JObj d) /\
       dict_contains "guid" d = true /\
       dict_contains "user" d = true /\
       dict_contains "expire" d = true /\
       (dict_contains "user" d0 = false ->
          dict_get "user" d = Some (JStr "mock generated")) /\
       (dict_contains "expire" d0 = false ->
          dict_get "expire" d = Some (JStr "999999999999")) /\
       (forall v, dict_get "user" d0 = Some v -> dict_get "user" d = Some v) /\
       (forall v, dict_get "expire" d0 = Some v -> dict_get "expire" d = Some v)) /\
  (forall args,
     Json.loads (call_data (create_request args)) =
     Ok (JObj (match Args.guid args with
               | None => [("user", py_str (Args.user args))]
               | Some _ => [("user", py_str (Args.user args));
                            ("expire", py_str (Args.expire args))]
               end))).
Proof.
  split; [|split].
  - intros H. apply respond_read_inv in H as (c & g & _ & ->). cbn [resp_text].
    eexists. split; [now apply decode_dumps|]. now repeat split.
  - intros H. apply respond_create_update_inv in H as (d0 & c & g & Hl & Hg & ->).
    cbn [resp_text]. exists d0. eexists.
    split; [exact Hl|].
    split; [apply decode_dumps, well_formed_spec_body;
            exact (loads_well_formed _ _ Hl)|].
    assert (Hguid : dict_get "guid" (spec_create_update_body (String c g) d0)
                    = Some (JStr (String c g))).
    { unfold spec_create_update_body. now rewrite dict_get_set. }
    assert (Huser : dict_get "user" (spec_create_update_body (String c g) d0)
                    = Some (match dict_get "user" d0 with
                            | Some v => v | None => JStr "mock generated" end)).
    { unfold spec_create_update_body, fill_missing. rewrite dict_get_set.
      cbn [String.eqb Ascii.eqb Bool.eqb]. rewrite !dict_contains_get.
      destruct (dict_get "expire" d0) eqn:He.
      - destruct (dict_get "user" d0) eqn:Hu; [exact Hu | now rewrite dict_get_set].
      - rewrite (dict_get_set "expire" "user"). cbn [String.eqb Ascii.eqb Bool.eqb].
        destruct (dict_get "user" d0) eqn:Hu.
        + now rewrite dict_get_set.
        + now rewrite dict_get_set. }
    assert (Hexp : dict_get "expire" (spec_create_update_body (String c g) d0)
                   = Some (match dict_get "expire" d0 with
                           | Some v => v | None => JStr "999999999999" end)).
    { unfold spec_create_update_body, fill_missing. rewrite dict_get_set.
      cbn [String.eqb Ascii.eqb Bool.eqb]. rewrite !dict_contains_get.
      destruct (dict_get "expire" d0) eqn:He.
      - destruct (dict_get "user" d0) eqn:Hu; [exact He|].
        rewrite dict_get_set. exact He.
      - rewrite (dict_get_set "expire" "user"). cbn [String.eqb Ascii.eqb Bool.eqb].
        destruct (dict_get "user" d0) eqn:Hu; now rewrite !dict_get_set. }
    rewrite !dict_contains_get, Hguid, Huser, Hexp.
    repeat split.
    + destruct (dict_get "user" d0); [discriminate | reflexivity].
    + destruct (dict_get "expire" d0); [discriminate | reflexivity].
    + intros v ->. reflexivity.
    + intros v ->. reflexivity.
  - exact create_request_body.
Qed.

Lemma three_keys_witness :
  exists d,
    Json.decode (resp_text (Response 200 None (Json.dumps (JObj (spec_read_body "7A")))))
    = Ok (JObj d)
    /\ dict_contains "guid" d = true
    /\ dict_get "user" d = Some (JStr "foo")
    /\ dict_get "expire" d = Some (JStr "1234123123123").
Proof.
  exact (proj1 (three_keys
    (Request GET "mock://test.net/guid/7A" "/guid/7A" "" [] None)
    (Response 200 None (Json.dumps (JObj (spec_read_body "7A")))))
    ltac:(vm_compute; reflexivity)).
Defined.

(* ================================================================== *)
(** ** Routing *)

(** The adapter that [mock_server] fills routes a request by its method
    alone, once [mock_re] is found in the URL; a URL without it gets no
    response at all. *)
Lemma send_mock_server (req : request) :
  send mock_server req =
  if re_search mock_re (req_url req) then
    respond (match method req with
             | GET => read_callback
             | POST => create_update_callback
             | DELETE => delete_callback
             end) req
  else Raise NoMockAddress.
Proof.
  unfold send, find_matcher, mock_server.
  destruct (method req); simpl;
    destruct (re_search mock_re (req_url req)); reflexivity.
Qed.

(* ================================================================== *)
(** ** C7: determinism *)

(** C7. Each of the three synthesizers that [mock_server] registers
    answers two requests of the same method, path and body with the same
    outcome: the same status, reason and body, character for character,
    or the same exception.  Nothing else of the request and nothing of an
    earlier call enters the response: each call starts from a fresh
    context.  The same holds through the adapter, which picks the
    synthesizer by the method, for two URLs that [mock_re] matches. *)
Theorem synthesizers_deterministic (m : matcher) (r1 r2 : request) :
  In m mock_server ->
  same_input r1 r2 ->
  respond (matcher_text m) r1 = respond (matcher_text m) r2 /\
  (re_search mock_re (req_url r1) = true ->
   re_search mock_re (req_url r2) = true ->
   send mock_server r1 = send mock_server r2).
Proof.
  intros Hm (Hmeth & Hp & Ht).
  assert (H : forall cb, In cb [read_callback; create_update_callback; delete_callback] ->
                         respond cb r1 = respond cb r2).
  { intros cb Hcb.
    destruct r1 as [m1 u1 p1 q1 h1 t1], r2 as [m2 u2 p2 q2 h2 t2].
    cbn [path text] in Hp, Ht. subst p2 t2.
    destruct Hcb as [<- | [<- | [<- | []]]]; reflexivity. }
  split.
  - apply H. destruct Hm as [<- | [<- | [<- | []]]]; simpl; auto.
  - intros H1 H2. rewrite !send_mock_server, H1, H2, <- Hmeth.
    apply H. destruct (method r1); simpl; auto.
Qed.

Lemma synthesizers_deterministic_witness :
  respond create_update_callback
    (Request POST "mock://test.net/guid" "/guid" "" [] (Some "{}"))
  = respond create_update_callback
    (Request POST "mock://test.net/guid?again" "/guid" "again" [("Accept", "*/*")]
             (Some "{}")).
Proof.
  exact (proj1 (synthesizers_deterministic
    (Matcher POST mock_re create_update_callback)
    (Request POST "mock://test.net/guid" "/guid" "" [] (Some "{}"))
    (Request POST "mock://test.net/guid?again" "/guid" "again" [("Accept", "*/*")]
             (Some "{}"))
    (or_intror (or_introl eq_refl))
    (conj eq_refl (conj eq_refl eq_refl)))).
Defined.

(* ================================================================== *)
(** ** C10: CREATE on the bare path *)

(** C10. On the bare path [/guid] CREATE settles on the fixed GUID
    ["77777777777777"], of 14 characters and not 32; whenever the body
    decodes to an object it answers with status 200 and with this GUID in
    the body, and no response on the bare path has another status, so
    neither 503 nor 404 can be reached.  The client's CREATE without a
    GUID posts to the bare path with a body that decodes to an object. *)
Theorem create_on_bare_path (req : request) :
  path req = "/guid" ->
  String.length placeholder_guid = 14%nat /\
  (forall d, Json.loads (text req) = Ok (JObj d) ->
     exists r d',
       respond create_update_callback req = Ok r /\
       resp_status_code r = 200%Z /\
       Json.decode (resp_text r) = Ok (JObj d') /\
       dict_get "guid" d' = Some (JStr "77777777777777")) /\
  (forall r, respond create_update_callback req = Ok r ->
     resp_status_code r = 200%Z /\ resp_status_code r <> 503%Z
     /\ resp_status_code r <> 404%Z) /\
  (forall args, Args.guid args = None ->
     call_url (create_request args) = Args.url args ++ "/guid" /\
     exists d, Json.loads (call_data (create_request args)) = Ok (JObj d)).
Proof.
  intros Hp. split; [reflexivity|]. split; [|split].
  - intros d Hl. eexists; eexists.
    split; [exact (respond_create_update req d "7" "7777777777777" Hl
                     (resolved_guid_bare _ Hp))|].
    cbn [resp_text resp_status_code]. split; [reflexivity|].
    split; [apply decode_dumps, well_formed_spec_body;
            exact (loads_well_formed _ _ Hl)|].
    unfold spec_create_update_body. now rewrite dict_get_set.
  - intros r H. apply respond_create_update_inv in H as (d & c & g & _ & Hg & ->).
    rewrite (resolved_guid_bare _ Hp) in Hg. injection Hg as <- <-.
    cbn [resp_status_code]. repeat split; discriminate.
  - intros args Hg. split.
    + unfold create_request. now rewrite Hg.
    + eexists. apply create_request_body.
Qed.

Lemma create_on_bare_path_witness :
  exists r, respond create_update_callback
              (Request POST "mock://test.net/guid" "/guid" "" []
                 (call_data (create_request
                    (Args.Namespace "mock://test.net" None (Some "alice") None Create))))
            = Ok r /\ resp_status_code r = 200%Z.
Proof.
  pose (args := Args.Namespace "mock://test.net" None (Some "alice") None Create).
  pose (req := Request POST "mock://test.net/guid" "/guid" "" []
                 (call_data (create_request args))).
  destruct (create_on_bare_path req eq_refl) as (_ & H & _ & _).
  destruct (H _ (create_request_body args)) as (r & d' & Hr & Hs & _).
  exists r. split; [exact Hr | exact Hs].
Defined.

(* ================================================================== *)
(** ** C8: the GUID validator *)

Lemma char_in_upper_hexdigits (c : ascii) :
  char_in c (upper hexdigits) = is_upper_hex c.
Proof. each_char c; reflexivity. Qed.

Lemma all_chars_ext (f g : ascii -> bool) (s : string) :
  (forall c, f c = g c) -> all_chars f s = all_chars g s.
Proof.
  intros H. induction s as [|c s IH]; simpl; [reflexivity | now rewrite H, IH].
Qed.

Lemma guid_spec (s : string) :
  guid s =
  if negb (Nat.eqb (String.length s) 32) then
    Raise (ArgumentTypeError "GUID needs to be 32 characters")
  else if negb (all_chars is_upper_hex s) then
    Raise (ArgumentTypeError "GUID is not a upper-case hexadecimal number")
  else Ok s.
Proof.
  unfold guid, len.
  rewrite (all_chars_ext _ is_upper_hex s char_in_upper_hexdigits).
  replace (Z.of_nat (String.length s) =? 32)%Z with (Nat.eqb (String.length s) 32);
    [reflexivity|].
  destruct (Nat.eqb_spec (String.length s) 32) as [E|E]; symmetry.
  - apply Z.eqb_eq. lia.
  - apply Z.eqb_neq. lia.
Qed.

(** An option value that its type function refuses ends [parse_args]. *)
Lemma parse_option_outcome
  (decl : declared) (type : string -> result string) (raw : option string) :
  (forall v, type v <> Unmodelled) ->
  (forall v e, type v = Raise e ->
     (exists msg, e = ArgumentTypeError msg) \/ e = ValueError) ->
  (exists x, parse_option decl type raw = Ok x) \/
  parse_option decl type raw = Raise (SystemExit 2).
Proof.
  intros Hu He. unfold parse_option, parser_error.
  destruct raw as [v|], decl; eauto;
    (destruct (type v) as [x | e |] eqn:E;
     [eauto | right | now elim (Hu v)];
     destruct (He v e E) as [[msg ->] | ->]; reflexivity).
Qed.

Lemma main_refused_guid
  (urlparse_scheme : string -> string) (after_epoch : string -> option bool)
  (a : argv) (s : string) (msg : string) :
  argv_guid a = Some s ->
  guid s = Raise (ArgumentTypeError msg) ->
  main urlparse_scheme after_epoch a = Raise (SystemExit 2).
Proof.
  intros Ha Hg. unfold main, parse_args.
  destruct (parse_option_outcome (expire_decl (argv_command a))
              (future_time after_epoch) (argv_expire a)) as [[e ->] | ->];
    [ | | cbn [Py.bind] | reflexivity ].
  - intros v. unfold future_time. destruct (after_epoch v) as [[]|]; discriminate.
  - intros v e. unfold future_time.
    destruct (after_epoch v) as [[]|]; intros [= <-]; eauto.
  - destruct (parse_option_outcome (user_decl (argv_command a)) Ok (argv_user a))
      as [[u ->] | ->];
      [ discriminate | discriminate | cbn [Py.bind] | reflexivity ].
    rewrite Ha. unfold parse_option at 1.
    destruct (guid_decl (argv_command a)) eqn:Ed.
    + destruct (argv_command a); discriminate Ed.
    + rewrite Hg. reflexivity.
    + rewrite Hg. reflexivity.
Qed.

(** C8. [guid] accepts a string, and returns it unchanged, exactly when
    it has 32 characters, each an upper-case hexadecimal digit [0-9A-F];
    on every other string it raises [ArgumentTypeError].  A command line
    whose [--guid] value is refused ends in [parse_args]: [main] exits
    with status 2 and yields no event, neither the mount of the mock
    adapter nor a call. *)
Theorem guid_validator (s : string) :
  (guid s = Ok s <->
     String.length s = 32%nat /\ all_chars is_upper_hex s = true) /\
  (forall r, guid s = Ok r -> r = s) /\
  (~ (String.length s = 32%nat /\ all_chars is_upper_hex s = true) ->
     exists msg, guid s = Raise (ArgumentTypeError msg)) /\
  (forall urlparse_scheme after_epoch a,
     argv_guid a = Some s ->
     ~ (String.length s = 32%nat /\ all_chars is_upper_hex s = true) ->
     main urlparse_scheme after_epoch a = Raise (SystemExit 2)).
Proof.
  assert (Hcases :
    (String.length s = 32%nat /\ all_chars is_upper_hex s = true /\ guid s = Ok s) \/
    (~ (String.length s = 32%nat /\ all_chars is_upper_hex s = true) /\
     exists msg, guid s = Raise (ArgumentTypeError msg))).
  { rewrite guid_spec.
    destruct (Nat.eqb_spec (String.length s) 32) as [E|E]; cbn [negb].
    - destruct (all_chars is_upper_hex s) eqn:Eh; cbn [negb].
      + left. auto.
      + right. split; [intros [_ H]; discriminate H | eauto].
    - right. split; [intros [H _]; now elim E | eauto]. }
  destruct Hcases as [(Hl & Hh & Hg) | (Hn & msg & Hg)].
  - split; [split; auto|]. split.
    + intros r Hr. rewrite Hg in Hr. now injection Hr as <-.
    + split; [intros H; now elim H | intros ? ? ? _ H; now elim H].
  - split; [split; [intros H; rewrite Hg in H; discriminate H | intros H; now elim Hn]|].
    split; [intros r Hr; rewrite Hg in Hr; discriminate Hr|].
    split; [eauto|].
    intros us ae a Ha _. now apply (main_refused_guid us ae a s msg).
Qed.

Lemma guid_validator_witness :
  guid "0123456789ABCDEF0123456789ABCDEF" = Ok "0123456789ABCDEF0123456789ABCDEF".
Proof.
  exact (proj2 (proj1 (guid_validator "0123456789ABCDEF0123456789ABCDEF"))
               (conj eq_refl eq_refl)).
Defined.

(* ================================================================== *)
(** ** C9: installing the mock adapter *)

(** C9. A run of [main] on parsed arguments mounts the mock adapter
    exactly when the URL starts with ["mock://"], never more than once,
    and dispatches exactly one call, the last event of the run, so that
    the mount, when there is one, comes before it.  Every run of [main]
    that yields events is such a run. *)
Theorem mock_installed (parsed : Args.namespace) :
  (In (Mount "mock" mock_server) (run parsed)
     <-> startswith "mock://" (Args.url parsed) = true) /\
  existsb is_mount (run parsed) = startswith "mock://" (Args.url parsed) /\
  (List.length (filter is_mount (run parsed)) <= 1)%nat /\
  filter is_send (run parsed) = [Send (call_func parsed)] /\
  (exists before,
     run parsed = (before ++ [Send (call_func parsed)])%list /\
     forallb is_mount before = true) /\
  (forall urlparse_scheme after_epoch a events,
     main urlparse_scheme after_epoch a = Ok events ->
     exists parsed',
       parse_args urlparse_scheme after_epoch a = Ok parsed' /\
       events = run parsed').
Proof.
  unfold run.
  destruct (startswith "mock://" (Args.url parsed)) eqn:E; cbn.
  - split; [split; auto|]. split; [reflexivity|]. split; [lia|].
    split; [reflexivity|]. split.
    + exists [Mount "mock" mock_server]. split; reflexivity.
    + intros us ae a events H. unfold main in H.
      destruct (parse_args us ae a) as [p| |]; try discriminate H.
      injection H as <-. now exists p.
  - split; [split; [intros [H|[]]; discriminate H | discriminate]|].
    split; [reflexivity|]. split; [lia|].
    split; [reflexivity|]. split.
    + exists []. split; reflexivity.
    + intros us ae a events H. unfold main in H.
      destruct (parse_args us ae a) as [p| |]; try discriminate H.
      injection H as <-. now exists p.
Qed.

Lemma mock_installed_witness :
  In (Mount "mock" mock_server)
     (run (Args.Namespace "mock://test.net" (Some "0123456789ABCDEF0123456789ABCDEF")
                          None None Read)).
Proof.
  exact (proj2 (proj1 (mock_installed
    (Args.Namespace "mock://test.net" (Some "0123456789ABCDEF0123456789ABCDEF")
                    None None Read))) eq_refl).
Defined.

(* ================================================================== *)
(** ** Which requests get a response *)

Lemma respond_read_short (req : request) :
  (String.length (path req) <= 6)%nat ->
  respond read_callback req = Raise IndexError.
Proof.
  intros H. apply slice_from_nil in H.
  unfold respond, read_callback. now rewrite H.
Qed.

Lemma respond_delete_short (req : request) :
  (String.length (path req) <= 6)%nat ->
  respond delete_callback req = Raise IndexError.
Proof.
  intros H. apply slice_from_nil in H.
  unfold respond, delete_callback. now rewrite H.
Qed.

Lemma respond_read_long (req : request) :
  (6 < String.length (path req))%nat ->
  exists c g, slice_from 6 (path req) = String c g /\
    respond read_callback req =
    Ok (Response (spec_status c) (spec_reason c)
                 (Json.dumps (JObj (spec_read_body (String c g))))).
Proof.
  intros H. destruct (slice_from 6 (path req)) as [|c g] eqn:E.
  - apply slice_from_nil in E. lia.
  - exists c, g. split; [reflexivity|].
    unfold respond, read_callback. rewrite E, fake_status_fresh. reflexivity.
Qed.

Lemma respond_delete_long (req : request) :
  (6 < String.length (path req))%nat ->
  exists c g, slice_from 6 (path req) = String c g /\
    respond delete_callback req = Ok (Response (spec_status c) (spec_reason c) "").
Proof.
  intros H. destruct (slice_from 6 (path req)) as [|c g] eqn:E.
  - apply slice_from_nil in E. lia.
  - exists c, g. split; [reflexivity|].
    unfold respond, delete_callback. rewrite E, fake_status_fresh. reflexivity.
Qed.

(** X1. READ and DELETE answer a request exactly when its path has more
    than six characters; on a shorter path, the bare [/guid] and [/guid/]
    included, [guid[0]] raises [IndexError] and there is no response.  The
    first six characters are never looked at: two paths that agree from
    the seventh character on get the same outcome. *)
Theorem read_delete_respond (req : request) :
  (respond read_callback req = Raise IndexError
     <-> (String.length (path req) <= 6)%nat) /\
  ((exists r, respond read_callback req = Ok r)
     <-> (6 < String.length (path req))%nat) /\
  (respond delete_callback req = Raise IndexError
     <-> (String.length (path req) <= 6)%nat) /\
  ((exists r, respond delete_callback req = Ok r)
     <-> (6 < String.length (path req))%nat) /\
  (forall req', slice_from 6 (path req') = slice_from 6 (path req) ->
     respond read_callback req' = respond read_callback req /\
     respond delete_callback req' = respond delete_callback req).
Proof.
  assert (Hsame : forall req', slice_from 6 (path req') = slice_from 6 (path req) ->
     respond read_callback req' = respond read_callback req /\
     respond delete_callback req' = respond delete_callback req).
  { intros req' E. unfold respond, read_callback, delete_callback. now rewrite E. }
  destruct (Nat.le_gt_cases (String.length (path req)) 6) as [Hs | Hl].
  - pose proof (respond_read_short req Hs) as Hr.
    pose proof (respond_delete_short req Hs) as Hd.
    split; [tauto|].
    split; [split; [intros [r H]; rewrite Hr in H; discriminate H | lia]|].
    split; [tauto|].
    split; [split; [intros [r H]; rewrite Hd in H; discriminate H | lia]|].
    exact Hsame.
  - destruct (respond_read_long req Hl) as (c & g & E & Hr).
    destruct (respond_delete_long req Hl) as (c' & g' & E' & Hd).
    split; [split; [rewrite Hr; discriminate | lia]|].
    split; [split; [auto | eauto]|].
    split; [split; [rewrite Hd; discriminate | lia]|].
    split; [split; [auto | eauto]|].
    exact Hsame.
Qed.

Lemma read_delete_respond_witness :
  respond read_callback (Request GET "mock://test.net/guid" "/guid" "" [] None)
  = Raise IndexError.
Proof.
  exact (proj2 (proj1 (read_delete_respond
    (Request GET "mock://test.net/guid" "/guid" "" [] None)))
    ltac:(simpl; lia)).
Defined.

(* ================================================================== *)
(** ** The exceptions of the decoder and of the callbacks *)

Lemma scanstring_raises (s : string) (e : exn) :
  Json.scanstring s = Raise e -> e = JSONDecodeError.
Proof.
  assert (H : forall n s, (String.length s <= n)%nat ->
                          Json.scanstring s = Raise e -> e = JSONDecodeError).
  { clear s. induction n as [|n IH]; intros s Hn H.
    - destruct s; [now injection H as <- | simpl in Hn; lia].
    - destruct s as [|c s]; [now injection H as <-|].
      simpl in Hn. cbn [Json.scanstring] in H. break_head H;
        try (now injection H as <-);
        match goal with
        | E : Json.scanstring ?t = Raise _ |- _ =>
            injection H as <-; apply IH in E; [exact E | simpl in *; lia]
        end. }
  exact (H _ s (le_n _)).
Qed.

Lemma scan_number_raises (s : string) (e : exn) :
  Json.scan_number s = Raise e -> e = JSONDecodeError.
Proof.
  unfold Json.scan_number, Json.parse_int. intros H.
  break_head H; now injection H as <-.
Qed.

Lemma scan_raises (e : exn) (n : nat) :
  (forall s, Json.scan_once n s = Raise e ->
             e = JSONDecodeError \/ e = RecursionError) /\
  (forall pairs s, Json.object_pairs n pairs s = Raise e ->
             e = JSONDecodeError \/ e = RecursionError) /\
  (forall values s, Json.array_values n values s = Raise e ->
             e = JSONDecodeError \/ e = RecursionError).
Proof.
  induction n as [|n (IHs & IHo & IHa)];
    [repeat split; intros; right; simpl in *; congruence|].
  repeat split.
  - intros s H. destruct s as [|c s]; [left; now injection H as <-|].
    cbn [Json.scan_once] in H. break_head H;
      try (left; now injection H as <-);
      try (left; now apply scan_number_raises in H);
      try (left; injection H as <-; now apply scanstring_raises in E0);
      try (now apply IHo in H); try (now apply IHa in H).
  - intros pairs s H. cbn [Json.object_pairs] in H. break_head H;
      try (left; now injection H as <-);
      try (left; injection H as <-;
           match goal with
           | E : Json.scanstring _ = Raise _ |- _ => now apply scanstring_raises in E
           end);
      try (injection H as <-;
           match goal with
           | E : Json.scan_once _ _ = Raise _ |- _ => now apply IHs in E
           end);
      try (now apply IHo in H).
  - intros values s H. cbn [Json.array_values] in H. break_head H;
      try (left; now injection H as <-);
      try (injection H as <-;
           match goal with
           | E : Json.scan_once _ _ = Raise _ |- _ => now apply IHs in E
           end);
      try (now apply IHa in H).
Qed.

Lemma decode_raises (s : string) (e : exn) :
  Json.decode s = Raise e -> e = JSONDecodeError.
Proof.
  intros H. pose proof (decode_no_recursion s) as Hn.
  assert (He : e = JSONDecodeError \/ e = RecursionError).
  { unfold Json.decode in H. break_head H; try (left; now injection H as <-).
    injection H as <-.
    destruct (scan_raises e0 (Json.enough_depth s)) as (Hs & _ & _).
    now apply Hs in E. }
  destruct He as [-> | ->]; [reflexivity | now elim Hn].
Qed.

Lemma loads_raises (t : option string) (e : exn) :
  Json.loads t = Raise e ->
  (t = None /\ e = TypeError) \/ (t <> None /\ e = JSONDecodeError).
Proof.
  destruct t as [s|]; simpl; intros H.
  - right. split; [discriminate | now apply decode_raises in H].
  - left. split; [reflexivity | now injection H as <-].
Qed.

(** The GUID that CREATE/UPDATE settles on is empty exactly on a path of
    six characters. *)
Lemma respond_create_update_empty_guid (req : request) (d : dict) :
  Json.loads (text req) = Ok (JObj d) ->
  String.length (path req) = 6%nat ->
  respond create_update_callback req = Raise IndexError.
Proof.
  intros Hl Hp. unfold respond. rewrite (create_update_object _ _ _ Hl). cbv zeta.
  destruct (resolved_guid_cases (path req)) as [[_ ->] | [Hn _]];
    [reflexivity | now elim Hn].
Qed.

Lemma respond_create_update_not_object (req : request) (v : json) :
  Json.loads (text req) = Ok v -> (forall d, v <> JObj d) ->
  respond create_update_callback req = Raise TypeError.
Proof.
  intros Hl Hv. unfold respond.
  now rewrite (create_update_not_object _ _ _ Hl Hv).
Qed.

Lemma respond_create_update_loads_raises (req : request) (e : exn) :
  Json.loads (text req) = Raise e ->
  respond create_update_callback req = Raise e.
Proof.
  intros Hl. unfold respond, create_update_callback. now rewrite Hl.
Qed.

Lemma respond_create_update_raises (req : request) (e : exn) :
  respond create_update_callback req = Raise e ->
  e = TypeError \/ e = JSONDecodeError \/ e = IndexError.
Proof.
  intros H.
  destruct (Json.loads (text req)) as [v | e' |] eqn:Hl.
  - destruct v as [| b | z | s | l | d];
      try (rewrite (respond_create_update_not_object _ _ Hl) in H by discriminate;
           injection H as <-; now left).
    destruct (resolved_guid_cases (path req)) as [[H6 _] | [_ (c & g & Hg)]].
    + rewrite (respond_create_update_empty_guid req d Hl H6) in H.
      injection H as <-. auto.
    + rewrite (respond_create_update req d c g Hl Hg) in H. discriminate H.
  - rewrite (respond_create_update_loads_raises _ _ Hl) in H. injection H as <-.
    destruct (loads_raises _ _ Hl) as [[_ ->] | [_ ->]]; auto.
  - unfold respond, create_update_callback in H. rewrite Hl in H. discriminate H.
Qed.

(** X2. For a request body that the model covers, CREATE/UPDATE answers
    exactly when the body decodes to a JSON object and the path does not
    have exactly six characters: on a path of six characters, such as
    [/guid/], the GUID is the empty string and [guid[0]] fails; a shorter
    path takes the placeholder.  Bodies outside the model, with a float
    or beyond the limits of the interpreter, are left open. *)
Theorem create_update_respond (req : request) :
  modelled (text req) = true ->
  ((exists r, respond create_update_callback req = Ok r) <->
   (exists d, Json.loads (text req) = Ok (JObj d)) /\
   String.length (path req) <> 6%nat).
Proof.
  intros _. split.
  - intros [r H]. pose proof H as H'.
    apply respond_create_update_inv in H as (d & c & g & Hl & Hg & _).
    split; [eauto|]. intros Hp.
    rewrite (respond_create_update_empty_guid req d Hl Hp) in H'. discriminate H'.
  - intros [[d Hl] Hp].
    destruct (resolved_guid_cases (path req)) as [[H6 _] | [_ (c & g & Hg)]];
      [now elim Hp|].
    eexists. exact (respond_create_update req d c g Hl Hg).
Qed.

Lemma create_update_respond_witness :
  exists r, respond create_update_callback
              (Request POST "mock://test.net/guid" "/guid" "" [] (Some "{}")) = Ok r.
Proof.
  set (req := Request POST "mock://test.net/guid" "/guid" "" [] (Some "{}")).
  assert (Hm : modelled (text req) = true) by (vm_compute; reflexivity).
  apply (proj2 (create_update_respond req Hm)).
  split; [exists []; vm_compute; reflexivity | simpl; lia].
Defined.

(** X3. The exceptions of CREATE/UPDATE, for a request body that the
    model covers.  A request without a body and a body that decodes to
    anything but an object (a list, a string, a number, a boolean, null)
    raise [TypeError]; a text that does not decode raises the decoder's
    [JSONDecodeError]; an object on a path of six characters raises
    [IndexError].  The body is decoded before the GUID is looked at, so
    its exception wins.  No other exception is raised for such a body;
    what the interpreter raises on a body beyond its limits is left
    open. *)
Theorem create_update_errors (req : request) :
  modelled (text req) = true ->
  (text req = None -> respond create_update_callback req = Raise TypeError) /\
  (forall v, Json.loads (text req) = Ok v -> (forall d, v <> JObj d) ->
     respond create_update_callback req = Raise TypeError) /\
  (forall e, Json.loads (text req) = Raise e ->
     respond create_update_callback req = Raise e) /\
  (forall d, Json.loads (text req) = Ok (JObj d) ->
     String.length (path req) = 6%nat ->
     respond create_update_callback req = Raise IndexError) /\
  (forall e, respond create_update_callback req = Raise e ->
     e = TypeError \/ e = JSONDecodeError \/ e = IndexError).
Proof.
  intros _. split; [|split; [|split; [|split]]].
  - intros Ht. apply respond_create_update_loads_raises. now rewrite Ht.
  - intros v. apply respond_create_update_not_object.
  - intros e. apply respond_create_update_loads_raises.
  - intros d. apply respond_create_update_empty_guid.
  - intros e. apply respond_create_update_raises.
Qed.

Lemma create_update_errors_witness :
  respond create_update_callback
    (Request POST "mock://test.net/guid/" "/guid/" "" [] (Some "[]"))
  = Raise TypeError.
Proof.
  set (req := Request POST "mock://test.net/guid/" "/guid/" "" [] (Some "[]")).
  assert (Hm : modelled (text req) = true) by (vm_compute; reflexivity).
  assert (Hl : Json.loads (text req) = Ok (JArr [])) by (vm_compute; reflexivity).
  apply (proj1 (proj2 (create_update_errors req Hm)) (JArr []) Hl).
  discriminate.
Defined.

(** X4. The adapter that [mock_server] fills answers [NoMockAddress]
    exactly when [mock_re] is not found in the URL of the request, whatever
    the method; when it is found, the method alone picks the synthesizer:
    GET the READ one, POST the CREATE/UPDATE one, DELETE the DELETE one. *)
Theorem routing (req : request) :
  (send mock_server req = Raise NoMockAddress
     <-> re_search mock_re (req_url req) = false) /\
  (re_search mock_re (req_url req) = true ->
     send mock_server req =
     respond (match method req with
              | GET => read_callback
              | POST => create_update_callback
              | DELETE => delete_callback
              end) req).
Proof.
  rewrite send_mock_server.
  destruct (re_search mock_re (req_url req)) eqn:E.
  - split; [|reflexivity]. split; [|discriminate]. intros H. exfalso.
    destruct (method req).
    + destruct (Nat.le_gt_cases (String.length (path req)) 6) as [Hs | Hl].
      * rewrite (respond_read_short req Hs) in H. discriminate H.
      * destruct (respond_read_long req Hl) as (c & g & _ & Hr).
        rewrite Hr in H. discriminate H.
    + destruct (respond_create_update_raises _ _ H) as [H' | [H' | H']];
        discriminate H'.
    + destruct (Nat.le_gt_cases (String.length (path req)) 6) as [Hs | Hl].
      * rewrite (respond_delete_short req Hs) in H. discriminate H.
      * destruct (respond_delete_long req Hl) as (c & g & _ & Hr).
        rewrite Hr in H. discriminate H.
  - split; [tauto | discriminate].
Qed.

Lemma routing_witness :
  send mock_server
    (Request GET "mock://example.org/guid/7A" "/guid/7A" "" [] None)
  = Raise NoMockAddress.
Proof.
  exact (proj2 (proj1 (routing
    (Request GET "mock://example.org/guid/7A" "/guid/7A" "" [] None)))
    ltac:(vm_compute; reflexivity)).
Defined.

(* ================================================================== *)
(** ** The validator's messages, and validated GUIDs in the mock *)

(** X5. [guid] tests the length first: a string whose length is not 32
    gets the message about the length, whatever its characters; a string
    of 32 characters with a character outside [0-9A-F], a lower-case
    hexadecimal digit included, gets the message about the digits. *)
Theorem guid_messages (s : string) :
  (guid s = Raise (ArgumentTypeError "GUID needs to be 32 characters")
     <-> String.length s <> 32%nat) /\
  (guid s = Raise (ArgumentTypeError "GUID is not a upper-case hexadecimal number")
     <-> String.length s = 32%nat /\ all_chars is_upper_hex s = false).
Proof.
  rewrite guid_spec.
  destruct (Nat.eqb_spec (String.length s) 32) as [E|E]; cbn [negb];
    [destruct (all_chars is_upper_hex s); cbn [negb]|];
    (split; split; intros H; try discriminate H; try tauto; try congruence;
     try (destruct H; congruence)).
Qed.

Lemma guid_messages_witness :
  guid "0123456789abcdef0123456789abcdef"
  = Raise (ArgumentTypeError "GUID is not a upper-case hexadecimal number").
Proof.
  exact (proj2 (proj2 (guid_messages "0123456789abcdef0123456789abcdef"))
               (conj eq_refl eq_refl)).
Defined.

Lemma guid_ok (g r : string) :
  guid g = Ok r ->
  r = g /\ String.length g = 32%nat /\ all_chars is_upper_hex g = true.
Proof.
  rewrite guid_spec.
  destruct (Nat.eqb_spec (String.length g) 32) as [E|E]; cbn [negb]; [|discriminate].
  destruct (all_chars is_upper_hex g); cbn [negb]; [|discriminate].
  intros [= <-]. auto.
Qed.

Lemma upper_hex_plain (c : ascii) : is_upper_hex c = true -> plain_char c = true.
Proof. each_char c; intros H; try discriminate H; reflexivity. Qed.

Lemma all_chars_impl (f h : ascii -> bool) (s : string) :
  (forall c, f c = true -> h c = true) ->
  all_chars f s = true -> all_chars h s = true.
Proof.
  intros Hi. induction s as [|c s IH]; simpl; [reflexivity|].
  intros H. apply andb_prop in H as [Hc Hs]. now rewrite (Hi c Hc), IH.
Qed.

(** The body of READ for an id that needs no escape. *)
Lemma read_body_literal (id : string) :
  all_chars plain_char id = true ->
  Json.dumps (JObj (spec_read_body id)) =
  "{" ++ quoted "guid" ++ ": " ++ quoted id ++ ", "
      ++ quoted "expire" ++ ": " ++ quoted "1234123123123" ++ ", "
      ++ quoted "user" ++ ": " ++ quoted "foo" ++ "}".
Proof.
  intros Hplain. unfold spec_read_body. rewrite dumps_obj_cons.
  cbn [Json.iterencode_dict Json.dumps].
  rewrite (encode_plain id) by assumption.
  rewrite !encode_plain by reflexivity.
  repeat (first [rewrite !append_assoc | progress cbn [append]]). reflexivity.
Qed.


Lemma spec_status_lower (c : ascii) :
  spec_status (lower_char c) = spec_status c /\
  spec_reason (lower_char c) = spec_reason c.
Proof. each_char c; split; reflexivity. Qed.

Lemma upper_hex_lower_plain (c : ascii) :
  is_upper_hex c = true -> plain_char (lower_char c) = true.
Proof. each_char c; intros H; try discriminate H; reflexivity. Qed.

Lemma all_chars_lower_hex (g : string) :
  all_chars is_upper_hex g = true -> all_chars plain_char (lower g) = true.
Proof.
  induction g as [|c g IH]; simpl; [reflexivity|].
  intros H. apply andb_prop in H as [Hc Hg].
  now rewrite (upper_hex_lower_plain c Hc), IH.
Qed.

(** X6. A GUID that [guid] accepts is served by the mock, lower-cased.
    The adapter hands the synthesizers the path of the lower-cased URL,
    [/guid/<guid>] with the letters [A-F] of the GUID turned into [a-f].
    On it READ and DELETE answer, never with [IndexError], with the status
    of the first character of the GUID; the body of READ holds the
    lower-cased GUID, no character of it escaped; and CREATE/UPDATE
    answers with the lower-cased GUID whenever the body is one that the
    model covers and decodes to an object. *)
Theorem accepted_guid_is_served (g : string) (req : request) :
  guid g = Ok g ->
  path req = "/guid/" ++ lower g ->
  exists c t,
    g = String c t /\ is_upper_hex c = true /\
    respond read_callback req =
      Ok (Response (spec_status c) (spec_reason c)
            ("{" ++ quoted "guid" ++ ": " ++ quoted (lower g) ++ ", "
                 ++ quoted "expire" ++ ": " ++ quoted "1234123123123" ++ ", "
                 ++ quoted "user" ++ ": " ++ quoted "foo" ++ "}")) /\
    respond delete_callback req = Ok (Response (spec_status c) (spec_reason c) "") /\
    (forall d, modelled (text req) = true ->
       Json.loads (text req) = Ok (JObj d) ->
       respond create_update_callback req =
       Ok (Response (spec_status c) (spec_reason c)
                    (Json.dumps (JObj (spec_create_update_body (lower g) d))))).
Proof.
  intros Hg Hp. apply guid_ok in Hg as (_ & Hlen & Hhex).
  destruct g as [|c t]; [discriminate Hlen|].
  pose proof (all_chars_lower_hex _ Hhex) as Hplain.
  cbn [lower] in Hp, Hplain |- *.
  exists c, t. split; [reflexivity|].
  pose proof Hhex as Hc. simpl in Hc. apply andb_prop in Hc as [Hc _].
  split; [exact Hc|].
  destruct (spec_status_lower c) as [Es Er].
  split; [|split].
  - rewrite (respond_read _ _ req Hp), (read_body_literal _ Hplain), Es, Er.
    reflexivity.
  - rewrite (respond_delete _ _ req Hp), Es, Er. reflexivity.
  - intros d _ Hl.
    rewrite (respond_create_update req d _ _ Hl (resolved_guid_segment _ _ Hp)), Es, Er.
    reflexivity.
Qed.

Lemma accepted_guid_is_served_witness :
  respond read_callback
    (Request GET "mock://test.net/guid/9123456789ABCDEF0123456789ABCDEF"
             "/guid/9123456789abcdef0123456789abcdef" "" [] None)
  = Ok (Response 503 (Some "mock server error test")
          (Json.dumps (JObj (spec_read_body "9123456789abcdef0123456789abcdef")))).
Proof.
  destruct (accepted_guid_is_served "9123456789ABCDEF0123456789ABCDEF"
    (Request GET "mock://test.net/guid/9123456789ABCDEF0123456789ABCDEF"
             "/guid/9123456789abcdef0123456789abcdef" "" [] None)
    ltac:(vm_compute; reflexivity) eq_refl)
    as (c & t & Hg & _ & Hr & _).
  injection Hg as <- <-. exact Hr.
Defined.

(* ================================================================== *)
(** ** The client's requests in the mock *)










(* ================================================================== *)
(** ** The response object of CREATE/UPDATE *)

Lemma dict_set_same (k : string) (v : json) (d : dict) :
  dict_get k d = Some v -> dict_set k v d = d.
Proof.
  induction d as [|[k0 v0] d IH]; simpl; [discriminate|].
  destruct (String.eqb k k0); [now intros [= ->] | intros H; now rewrite IH].
Qed.

Lemma fill_missing_present (key placeholder : string) (d : dict) :
  dict_contains key d = true -> fill_missing key placeholder d = d.
Proof. intros H. unfold fill_missing. now rewrite H. Qed.

Lemma dict_contains_fill (k key placeholder : string) (d : dict) :
  dict_contains k (fill_missing key placeholder d)
  = String.eqb k key || dict_contains k d.
Proof.
  unfold fill_missing. destruct (dict_contains key d) eqn:E.
  - destruct (String.eqb_spec k key) as [->|_]; [now rewrite E | reflexivity].
  - apply dict_contains_set.
Qed.

Lemma spec_body_fixed (guid : string) (d : dict) :
  spec_create_update_body guid (spec_create_update_body guid d)
  = spec_create_update_body guid d.
Proof.
  unfold spec_create_update_body at 1.
  rewrite (fill_missing_present "expire").
  2:{ unfold spec_create_update_body.
      rewrite dict_contains_set, !dict_contains_fill. cbn [String.eqb Ascii.eqb Bool.eqb].
      now rewrite orb_true_r. }
  rewrite (fill_missing_present "user").
  2:{ unfold spec_create_update_body.
      rewrite dict_contains_set, !dict_contains_fill. cbn [String.eqb Ascii.eqb Bool.eqb].
      reflexivity. }
  apply dict_set_same. unfold spec_create_update_body.
  rewrite dict_get_set. reflexivity.
Qed.

(** X10. Posting a response of CREATE/UPDATE back to the same path gives
    the same response, character for character: the object already holds
    [expire], [user] and the GUID of the path, so nothing is filled in and
    nothing moves. *)
Theorem repost_gives_same_response (req req' : request) (r : response) :
  respond create_update_callback req = Ok r ->
  path req' = path req ->
  text req' = Some (resp_text r) ->
  respond create_update_callback req' = Ok r.
Proof.
  intros H Hp Ht.
  apply respond_create_update_inv in H as (d & c & g & Hl & Hg & ->).
  cbn [resp_text] in Ht.
  assert (Hl' : Json.loads (text req')
                = Ok (JObj (spec_create_update_body (String c g) d))).
  { rewrite Ht. apply decode_dumps, well_formed_spec_body.
    exact (loads_well_formed _ _ Hl). }
  rewrite <- Hp in Hg.
  rewrite (respond_create_update req' _ c g Hl' Hg), spec_body_fixed. reflexivity.
Qed.

Lemma repost_gives_same_response_witness :
  respond create_update_callback
    (Request POST "mock://test.net/guid" "/guid" "" []
       (Some (Json.dumps (JObj [("expire", JStr "999999999999");
                                ("user", JStr "mock generated");
                                ("guid", JStr "77777777777777")]))))
  = Ok (Response 200 None
          (Json.dumps (JObj [("expire", JStr "999999999999");
                             ("user", JStr "mock generated");
                             ("guid", JStr "77777777777777")]))).
Proof.
  apply (repost_gives_same_response
           (Request POST "mock://test.net/guid" "/guid" "" [] (Some "{}"))).
  - vm_compute; reflexivity.
  - reflexivity.
  - reflexivity.
Defined.

Lemma keys_dict_set (k : string) (v : json) (d : dict) :
  map fst (dict_set k v d)
  = (map fst d ++ (if dict_contains k d then [] else [k]))%list.
Proof.
  induction d as [|[k0 v0] d IH]; simpl; [reflexivity|].
  destruct (String.eqb k k0); simpl.
  - now rewrite List.app_nil_r.
  - now rewrite IH.
Qed.

Lemma keys_fill_missing (key placeholder : string) (d : dict) :
  map fst (fill_missing key placeholder d)
  = (map fst d ++ (if dict_contains key d then [] else [key]))%list.
Proof.
  unfold fill_missing. destruct (dict_contains key d) eqn:E.
  - now rewrite List.app_nil_r.
  - now rewrite keys_dict_set, E.
Qed.

(** X11. The order of the members in a response of CREATE/UPDATE: the
    members of the request body come first, in the order and at the place
    they were sent, and after them those of [expire], [user] and [guid]
    that the body did not hold, in this order. *)
Theorem members_keep_their_place (req : request) (r : response) (d : dict) :
  Json.loads (text req) = Ok (JObj d) ->
  respond create_update_callback req = Ok r ->
  exists d',
    Json.decode (resp_text r) = Ok (JObj d') /\
    map fst d' =
    (map fst d ++
     filter (fun k => negb (dict_contains k d)) ["expire"; "user"; "guid"])%list.
Proof.
  intros Hl H.
  apply respond_create_update_inv in H as (d0 & c & g & Hl0 & _ & ->).
  rewrite Hl in Hl0. injection Hl0 as <-. cbn [resp_text].
  eexists. split.
  - apply decode_dumps, well_formed_spec_body. exact (loads_well_formed _ _ Hl).
  - unfold spec_create_update_body.
    rewrite keys_dict_set, !dict_contains_fill, !keys_fill_missing, dict_contains_fill.
    cbn [String.eqb Ascii.eqb Bool.eqb orb filter].
    destruct (dict_contains "expire" d), (dict_contains "user" d),
      (dict_contains "guid" d); cbn [negb]; rewrite <- ?List.app_assoc; reflexivity.
Qed.

Lemma members_keep_their_place_witness :
  exists d',
    Json.decode (resp_text (Response 200 None
      (Json.dumps (JObj [("user", JStr "alice"); ("expire", JStr "999999999999");
                         ("guid", JStr "77777777777777")]))))
    = Ok (JObj d') /\
    map fst d' = ["user"; "expire"; "guid"].
Proof.
  pose (req := Request POST "mock://test.net/guid" "/guid" "" []
                 (Some ("{" ++ quoted "user" ++ ": " ++ quoted "alice" ++ "}"))).
  assert (Hl : Json.loads (text req) = Ok (JObj [("user", JStr "alice")]))
    by (vm_compute; reflexivity).
  assert (Hr : respond create_update_callback req
               = Ok (Response 200 None
                       (Json.dumps (JObj [("user", JStr "alice");
                                          ("expire", JStr "999999999999");
                                          ("guid", JStr "77777777777777")]))))
    by (vm_compute; reflexivity).
  exact (members_keep_their_place req _ _ Hl Hr).
Defined.

(** X12. Every response that a synthesizer of [mock_server] builds has
    status 200 with no reason, 404 with the client error reason, or 503
    with the server error reason, whatever the request. *)
Theorem response_statuses (m : matcher) (req : request) (r : response) :
  In m mock_server ->
  respond (matcher_text m) req = Ok r ->
  (resp_status_code r = 200 /\ resp_reason r = None) \/
  (resp_status_code r = 404 /\ resp_reason r = Some "mock client error test") \/
  (resp_status_code r = 503 /\ resp_reason r = Some "mock server error test").
Proof.
  intros Hm H.
  assert (Hc : exists c body, r = Response (spec_status c) (spec_reason c) body).
  { destruct Hm as [<- | [<- | [<- | []]]]; cbn [matcher_text] in H.
    - apply respond_read_inv in H as (c & g & _ & ->). eauto.
    - apply respond_create_update_inv in H as (d & c & g & _ & _ & ->). eauto.
    - apply respond_delete_inv in H as (c & g & _ & ->). eauto. }
  destruct Hc as (c & body & ->). cbn [resp_status_code resp_reason].
  unfold spec_status, spec_reason.
  destruct (Ascii.eqb c "9"); [auto|]. destruct (Ascii.eqb c "8"); auto.
Qed.

Lemma response_statuses_witness :
  (404 = 200 /\ Some "mock client error test" = None) \/
  (404 = 404 /\ Some "mock client error test" = Some "mock client error test") \/
  (404 = 503 /\ Some "mock client error test" = Some "mock server error test").
Proof.
  exact (response_statuses (Matcher DELETE mock_re delete_callback)
           (Request DELETE "mock://test.net/guid/8B" "/guid/8B" "" [] None)
           (Response 404 (Some "mock client error test") "")
           (or_intror (or_intror (or_introl eq_refl))) eq_refl).
Defined.

(* ================================================================== *)
(** ** The command line *)

Lemma parse_option_ok
  (decl : declared) (type : string -> result string) (raw x : option string) :
  (forall v y, type v = Ok y -> y = v) ->
  (parse_option decl type raw = Ok x
     <-> option_accepted decl type raw /\ x = raw).
Proof.
  intros Hid. unfold parse_option, option_accepted, parser_error.
  destruct raw as [v|], decl; try (split; [discriminate | now intros [[] _]]);
    try (split; [now intros [= <-] | now intros [_ ->]]);
    (destruct (type v) as [y | e |] eqn:E;
     [ split;
       [ intros [= <-]; rewrite (Hid v y E); split; [now exists v; rewrite <- (Hid v y E) | reflexivity]
       | intros [_ ->]; now rewrite (Hid v y E) ]
     | split; [destruct e; discriminate | intros [[y Hy] _]; discriminate Hy]
     | split; [discriminate | intros [[y Hy] _]; discriminate Hy] ]).
Qed.

Lemma url_returns_argument (urlparse_scheme : string -> string) (v y : string) :
  url urlparse_scheme v = Ok y -> y = v.
Proof.
  unfold url. destruct (String.eqb (urlparse_scheme v) ""); [discriminate|].
  now intros [= <-].
Qed.

Lemma future_time_returns_argument (after_epoch : string -> option bool) (v y : string) :
  future_time after_epoch v = Ok y -> y = v.
Proof.
  unfold future_time. destruct (after_epoch v) as [[]|]; try discriminate.
  now intros [= <-].
Qed.

Lemma guid_returns_argument (v y : string) : guid v = Ok y -> y = v.
Proof. intros H. now apply guid_ok in H as [-> _]. Qed.

Lemma parse_args_cases
  (urlparse_scheme : string -> string) (after_epoch : string -> option bool)
  (a : argv) :
  (forall ns,
     parse_args urlparse_scheme after_epoch a = Ok ns <->
     option_accepted (expire_decl (argv_command a)) (future_time after_epoch)
                     (argv_expire a) /\
     option_accepted (user_decl (argv_command a)) Ok (argv_user a) /\
     option_accepted (guid_decl (argv_command a)) guid (argv_guid a) /\
     exists u, argv_url a = Some u /\ url urlparse_scheme u = Ok u /\
               ns = Args.Namespace u (argv_guid a) (argv_user a) (argv_expire a)
                                   (argv_command a)) /\
  ((exists ns, parse_args urlparse_scheme after_epoch a = Ok ns) \/
   parse_args urlparse_scheme after_epoch a = Raise (SystemExit 2)).
Proof.
  pose proof (parse_option_ok (expire_decl (argv_command a)) (future_time after_epoch)
                (argv_expire a)) as He.
  pose proof (parse_option_ok (user_decl (argv_command a)) Ok (argv_user a)) as Hu.
  pose proof (parse_option_ok (guid_decl (argv_command a)) guid (argv_guid a)) as Hg.
  pose proof (parse_option_ok Required (url urlparse_scheme) (argv_url a)) as Hurl.
  specialize (fun x => He x (future_time_returns_argument after_epoch)).
  specialize (fun x => Hu x ltac:(now intros v y [= <-])).
  specialize (fun x => Hg x guid_returns_argument).
  specialize (fun x => Hurl x (url_returns_argument urlparse_scheme)).
  unfold parse_args; cbv zeta.
  destruct (parse_option_outcome (expire_decl (argv_command a))
              (future_time after_epoch) (argv_expire a)) as [[e E1] | E1].
  { intros v. unfold future_time. destruct (after_epoch v) as [[]|]; discriminate. }
  { intros v e. unfold future_time.
    destruct (after_epoch v) as [[]|]; intros [= <-]; eauto. }
  2:{ rewrite E1. cbn [Py.bind]. split; [|now right].
      intros ns. split; [discriminate|]. intros (H & _).
      pose proof (proj2 (He (argv_expire a)) (conj H eq_refl)) as X. rewrite E1 in X. discriminate X. }
  rewrite E1. cbn [Py.bind]. apply He in E1 as [A1 ->].
  destruct (parse_option_outcome (user_decl (argv_command a)) Ok (argv_user a))
    as [[u E2] | E2]; [discriminate | discriminate | |].
  2:{ rewrite E2. cbn [Py.bind]. split; [|now right].
      intros ns. split; [discriminate|]. intros (_ & H & _).
      pose proof (proj2 (Hu (argv_user a)) (conj H eq_refl)) as X. rewrite E2 in X. discriminate X. }
  rewrite E2. cbn [Py.bind]. apply Hu in E2 as [A2 ->].
  destruct (parse_option_outcome (guid_decl (argv_command a)) guid (argv_guid a))
    as [[g E3] | E3].
  { intros v. rewrite guid_spec.
    destruct (negb _); [discriminate|]. destruct (negb _); discriminate. }
  { intros v e. rewrite guid_spec.
    destruct (negb _); [intros [= <-]; eauto|].
    destruct (negb _); [intros [= <-]; eauto | discriminate]. }
  2:{ rewrite E3. cbn [Py.bind]. split; [|now right].
      intros ns. split; [discriminate|]. intros (_ & _ & H & _).
      pose proof (proj2 (Hg (argv_guid a)) (conj H eq_refl)) as X. rewrite E3 in X. discriminate X. }
  rewrite E3. cbn [Py.bind]. apply Hg in E3 as [A3 ->].
  destruct (parse_option_outcome Required (url urlparse_scheme) (argv_url a))
    as [[w E4] | E4].
  { intros v. unfold url. destruct (String.eqb _ _); discriminate. }
  { intros v e. unfold url. destruct (String.eqb _ _); [intros [= <-]; eauto | discriminate]. }
  2:{ rewrite E4. cbn [Py.bind]. split; [|now right].
      intros ns. split; [discriminate|]. intros (_ & _ & _ & u & Ha & Hv & _).
      assert (Hacc : option_accepted Required (url urlparse_scheme) (argv_url a))
        by (rewrite Ha; simpl; eauto).
      pose proof (proj2 (Hurl (argv_url a)) (conj Hacc eq_refl)) as X. rewrite E4 in X. discriminate X. }
  rewrite E4. cbn [Py.bind]. apply Hurl in E4 as [A4 ->].
  destruct (argv_url a) as [u|] eqn:Ea; [|now elim A4].
  simpl in A4. destruct A4 as [y Hy].
  pose proof (url_returns_argument _ _ _ Hy) as ->.
  split; [|left; eauto].
  intros ns. split.
  - intros [= <-]. repeat split; trivial. exists u. auto.
  - intros (_ & _ & _ & u' & [= <-] & _ & ->). reflexivity.
Qed.

(** X13. Among the command lines that name a sub-command and carry only
    the options [--url], [--guid], [--user] and [--expire], [parse_args]
    takes exactly those where every option obeys the declaration of its
    sub-parser ([--expire] optional for create, required for update;
    [--user] required for create; [--guid] optional for create, required
    otherwise; [--url] always required; no option that the sub-parser does
    not declare) and every type function returns; it then hands every
    value over as it was typed.  Every other command line of this form
    ends in exit status 2. *)
Theorem parse_args_accepts
  (urlparse_scheme : string -> string) (after_epoch : string -> option bool)
  (a : argv) :
  (forall ns,
     parse_args urlparse_scheme after_epoch a = Ok ns <->
     option_accepted (expire_decl (argv_command a)) (future_time after_epoch)
                     (argv_expire a) /\
     option_accepted (user_decl (argv_command a)) Ok (argv_user a) /\
     option_accepted (guid_decl (argv_command a)) guid (argv_guid a) /\
     exists u, argv_url a = Some u /\ url urlparse_scheme u = Ok u /\
               ns = Args.Namespace u (argv_guid a) (argv_user a) (argv_expire a)
                                   (argv_command a)) /\
  ((exists ns, parse_args urlparse_scheme after_epoch a = Ok ns) \/
   parse_args urlparse_scheme after_epoch a = Raise (SystemExit 2)).
Proof. exact (parse_args_cases urlparse_scheme after_epoch a). Qed.

Lemma parse_args_accepts_witness :
  parse_args (fun _ => "mock") (fun _ => Some false)
    (Argv Update (Some "mock://test.net") (Some "0123456789ABCDEF0123456789ABCDEF")
          None (Some "2000000000"))
  = Ok (Args.Namespace "mock://test.net" (Some "0123456789ABCDEF0123456789ABCDEF")
                       None (Some "2000000000") Update).
Proof.
  apply (proj1 (parse_args_accepts (fun _ => "mock") (fun _ => Some false)
    (Argv Update (Some "mock://test.net") (Some "0123456789ABCDEF0123456789ABCDEF")
          None (Some "2000000000")))).
  repeat split.
  - now exists "2000000000".
  - exists "0123456789ABCDEF0123456789ABCDEF". vm_compute. reflexivity.
  - exists "mock://test.net". repeat split.
Defined.

(* ================================================================== *)
(** ** What [main] sends *)

Lemma accepted_guid (decl : declared) (g : string) :
  option_accepted decl guid (Some g) -> guid g = Ok g.
Proof.
  intros H. assert (Hx : exists x, guid g = Ok x) by (destruct decl; [elim H | exact H | exact H]).
  destruct Hx as [x Hx]. now rewrite (guid_returns_argument _ _ Hx) in Hx.
Qed.

Lemma main_runs_parsed
  (urlparse_scheme : string -> string) (after_epoch : string -> option bool)
  (a : argv) (events : list event) :
  main urlparse_scheme after_epoch a = Ok events ->
  exists u,
    argv_url a = Some u /\ url urlparse_scheme u = Ok u /\
    option_accepted (expire_decl (argv_command a)) (future_time after_epoch)
                    (argv_expire a) /\
    option_accepted (user_decl (argv_command a)) Ok (argv_user a) /\
    option_accepted (guid_decl (argv_command a)) guid (argv_guid a) /\
    events = run (Args.Namespace u (argv_guid a) (argv_user a) (argv_expire a)
                                 (argv_command a)).
Proof.
  unfold main. intros H.
  destruct (parse_args urlparse_scheme after_epoch a) as [ns | e |] eqn:E;
    try discriminate H.
  cbn [Py.bind] in H. injection H as <-.
  apply (proj1 (parse_args_cases urlparse_scheme after_epoch a)) in E
    as (He & Hu & Hg & u & Ha & Hv & ->).
  exists u. auto 10.
Qed.

(** X14. What an accepted command line sends.  When [main] returns, it
    sends exactly one call, after mounting the mock adapter if and only if
    the URL starts with [mock://].  The call is: for [create] without
    [--guid], a POST on [<url>/guid] of the user alone; for [create] with
    [--guid], a POST on [<url>/guid/<guid>] of the user and of the expire
    value, [null] when [--expire] was not given; for [read] and [delete], a
    GET and a DELETE on [<url>/guid/<guid>] without a body; for [update], a
    POST on [<url>/guid/<guid>] of the expire value alone.  A GUID in a URL
    has passed the validator, and no URL ends in [/guid/None]. *)
Theorem main_call_shape
  (urlparse_scheme : string -> string) (after_epoch : string -> option bool)
  (a : argv) (events : list event) :
  main urlparse_scheme after_epoch a = Ok events ->
  exists u call,
    argv_url a = Some u /\
    events = ((if startswith "mock://" u then [Mount "mock" mock_server] else [])
              ++ [Send call])%list /\
    match argv_command a, argv_guid a with
    | Create, None =>
        exists usr, argv_user a = Some usr /\
          call = HttpRequest POST (u ++ "/guid")
                   (Some (Json.dumps (JObj [("user", JStr usr)])))
    | Create, Some g =>
        exists usr, argv_user a = Some usr /\ guid g = Ok g /\
          call = HttpRequest POST (u ++ "/guid/" ++ g)
                   (Some (Json.dumps (JObj [("user", JStr usr);
                                            ("expire", py_str (argv_expire a))])))
    | Read, Some g =>
        guid g = Ok g /\ call = HttpRequest GET (u ++ "/guid/" ++ g) None
    | Update, Some g =>
        exists e, argv_expire a = Some e /\ guid g = Ok g /\
          call = HttpRequest POST (u ++ "/guid/" ++ g)
                   (Some (Json.dumps (JObj [("expire", JStr e)])))
    | Delete, Some g =>
        guid g = Ok g /\ call = HttpRequest DELETE (u ++ "/guid/" ++ g) None
    | _, None => False
    end.
Proof.
  intros H. apply main_runs_parsed in H as (u & Ha & _ & He & Hu & Hg & ->).
  exists u. eexists. split; [exact Ha|]. split; [reflexivity|].
  unfold call_func. cbn [Args.func].
  destruct (argv_command a), (argv_guid a) as [g|];
    cbn [guid_decl user_decl expire_decl] in Hg, Hu, He;
    try (now elim Hg);
    try (pose proof (accepted_guid _ _ Hg) as Hv).
  - destruct (argv_user a) as [usr|]; [|now elim Hu].
    exists usr. repeat split; trivial.
  - destruct (argv_user a) as [usr|]; [|now elim Hu].
    exists usr. repeat split; trivial.
  - split; [exact Hv | reflexivity].
  - destruct (argv_expire a) as [e|]; [|now elim He].
    exists e. repeat split; trivial.
  - split; [exact Hv | reflexivity].
Qed.

Lemma main_call_shape_witness :
  exists call,
    main (fun _ => "mock") (fun _ => Some false)
      (Argv Create (Some "mock://test.net") (Some "0123456789ABCDEF0123456789ABCDEF")
            (Some "bob") None)
    = Ok [Mount "mock" mock_server; Send call] /\
    call_data call = Some (Json.dumps (JObj [("user", JStr "bob"); ("expire", JNull)])).
Proof.
  set (a := Argv Create (Some "mock://test.net")
                 (Some "0123456789ABCDEF0123456789ABCDEF") (Some "bob") None).
  assert (Hp : parse_args (fun _ => "mock") (fun _ => Some false) a
               = Ok (Args.Namespace "mock://test.net"
                       (Some "0123456789ABCDEF0123456789ABCDEF")
                       (Some "bob") None Create))
    by (vm_compute; reflexivity).
  assert (Hm : main (fun _ => "mock") (fun _ => Some false) a
               = Ok (run (Args.Namespace "mock://test.net"
                            (Some "0123456789ABCDEF0123456789ABCDEF")
                            (Some "bob") None Create)))
    by (unfold main; rewrite Hp; reflexivity).
  destruct (main_call_shape _ _ a _ Hm) as (u & call & Hu & Hev & usr & Husr & _ & Hc).
  injection Hu as <-. injection Husr as <-.
  exists call. split; [rewrite Hm, Hev; reflexivity|]. rewrite Hc. reflexivity.
Defined.

Lemma re_search_mock_re (rest : string) :
  re_search mock_re ("mock://test.net/guid" ++ rest) = true.
Proof.
  assert (H : re_match mock_re ("mock://test.net/guid" ++ rest) = true)
    by reflexivity.
  change ("mock://test.net/guid" ++ rest)
    with (String "m" ("ock://test.net/guid" ++ rest)) in *.
  cbn [re_search]. now rewrite H.
Qed.

(** X15. With [--url mock://test.net], every call that [main] sends is
    answered by the mock: the adapter is mounted before the call, and the
    pattern of [mock_server] is found in the URL of the call, so that the
    adapter never raises [NoMockAddress]. *)
Theorem mock_endpoint_is_caught
  (urlparse_scheme : string -> string) (after_epoch : string -> option bool)
  (a : argv) (events : list event) :
  argv_url a = Some "mock://test.net" ->
  main urlparse_scheme after_epoch a = Ok events ->
  exists call,
    events = [Mount "mock" mock_server; Send call] /\
    forall req, req_url req = call_url call ->
      send mock_server req <> Raise NoMockAddress.
Proof.
  intros Ha H. apply main_runs_parsed in H as (u & Hu & _ & _ & _ & _ & ->).
  rewrite Ha in Hu. injection Hu as <-.
  eexists. split; [reflexivity|].
  intros req Hr. rewrite send_mock_server, Hr.
  assert (Hs : re_search mock_re
                 (call_url (call_func
                    (Args.Namespace "mock://test.net" (argv_guid a) (argv_user a)
                                    (argv_expire a) (argv_command a)))) = true).
  { unfold call_func, create_request, read_request, update_request, delete_request.
    cbn [Args.func Args.guid Args.url].
    destruct (argv_command a); [destruct (argv_guid a)| | |]; cbn [call_url];
      first [ exact (re_search_mock_re "")
            | exact (re_search_mock_re (String "/" (percent_s _))) ]. }
  rewrite Hs. intros H.
  destruct (method req).
  - destruct (Nat.le_gt_cases (String.length (path req)) 6) as [Hsh | Hl].
    + rewrite (respond_read_short req Hsh) in H. discriminate H.
    + destruct (respond_read_long req Hl) as (c & g & _ & Hx).
      rewrite Hx in H. discriminate H.
  - destruct (respond_create_update_raises _ _ H) as [H' | [H' | H']]; discriminate H'.
  - destruct (Nat.le_gt_cases (String.length (path req)) 6) as [Hsh | Hl].
    + rewrite (respond_delete_short req Hsh) in H. discriminate H.
    + destruct (respond_delete_long req Hl) as (c & g & _ & Hx).
      rewrite Hx in H. discriminate H.
Qed.

Lemma mock_endpoint_is_caught_witness :
  exists call,
    main (fun _ => "mock") (fun _ => Some false)
      (Argv Delete (Some "mock://test.net") (Some "0123456789ABCDEF0123456789ABCDEF")
            None None)
    = Ok [Mount "mock" mock_server; Send call] /\
    send mock_server
      (Request DELETE (call_url call) "/guid/0123456789ABCDEF0123456789ABCDEF" "" [] None)
    <> Raise NoMockAddress.
Proof.
  set (a := Argv Delete (Some "mock://test.net")
                 (Some "0123456789ABCDEF0123456789ABCDEF") None None).
  assert (Hp : parse_args (fun _ => "mock") (fun _ => Some false) a
               = Ok (Args.Namespace "mock://test.net"
                       (Some "0123456789ABCDEF0123456789ABCDEF") None None Delete))
    by (vm_compute; reflexivity).
  assert (Hm : main (fun _ => "mock") (fun _ => Some false) a
               = Ok (run (Args.Namespace "mock://test.net"
                            (Some "0123456789ABCDEF0123456789ABCDEF") None None Delete)))
    by (unfold main; rewrite Hp; reflexivity).
  destruct (mock_endpoint_is_caught _ _ a _ eq_refl Hm) as (call & Hev & Hs).
  exists call. split; [rewrite Hm, Hev; reflexivity|].
  apply Hs. reflexivity.
Defined.

(* ================================================================== *)
(** ** What the client prints *)

Lemma send_mock_server_ok (req : request) (r : response) :
  send mock_server req = Ok r ->
  exists c body, r = Response (spec_status c) (spec_reason c) body.
Proof.
  rewrite send_mock_server.
  destruct (re_search mock_re (req_url req)); [|discriminate].
  destruct (method req); intros H.
  - apply respond_read_inv in H as (c & g & _ & ->). eauto.
  - apply respond_create_update_inv in H as (d & c & g & _ & _ & ->). eauto.
  - apply respond_delete_inv in H as (c & g & _ & ->). eauto.
Qed.

Lemma send_mock_server_raises (req : request) (e : exn) :
  send mock_server req = Raise e ->
  e = NoMockAddress \/ e = IndexError \/ e = TypeError \/ e = JSONDecodeError.
Proof.
  rewrite send_mock_server.
  destruct (re_search mock_re (req_url req)); [|intros [= <-]; auto].
  destruct (method req); intros H.
  - destruct (Nat.le_gt_cases (String.length (path req)) 6) as [Hs | Hl].
    + rewrite (respond_read_short req Hs) in H. injection H as <-. auto.
    + destruct (respond_read_long req Hl) as (c & g & _ & Hx).
      rewrite Hx in H. discriminate H.
  - destruct (respond_create_update_raises _ _ H) as [-> | [-> | ->]]; auto.
  - destruct (Nat.le_gt_cases (String.length (path req)) 6) as [Hs | Hl].
    + rewrite (respond_delete_short req Hs) in H. injection H as <-. auto.
    + destruct (respond_delete_long req Hl) as (c & g & _ & Hx).
      rewrite Hx in H. discriminate H.
Qed.

(** X16. What a decorated request function prints for a response of the
    mock.  For status 200 it prints the body and then [Success]; for every
    other response of the mock (404 and 503) it prints the text of the
    [HTTPError] alone: neither the body nor [Success]. *)
Theorem printed_over_mock
  (http_error_msg : response -> string)
  (session_send : http_request -> result response)
  (request_func : Args.namespace -> http_request)
  (args : Args.namespace) (req : request) (r : response) :
  session_send (request_func args) = send mock_server req ->
  send mock_server req = Ok r ->
  handle_response http_error_msg session_send request_func args =
    Ok (if resp_status_code r =? 200 then [resp_text r; "Success"]
        else [http_error_msg r]).
Proof.
  intros Hs Hr. unfold handle_response, raise_for_status.
  rewrite Hs, Hr. cbn [Py.bind].
  apply send_mock_server_ok in Hr as (c & body & ->).
  cbn [resp_status_code resp_text]. unfold spec_status.
  destruct (Ascii.eqb c "9"); [reflexivity|].
  destruct (Ascii.eqb c "8"); reflexivity.
Qed.

Lemma printed_over_mock_witness :
  handle_response (fun _ => "404 Client Error")
    (fun call => send mock_server
       (Request (call_method call) (call_url call) "/guid/8A" "" [] (call_data call)))
    read_request
    (Args.Namespace "mock://test.net" (Some "8A") None None Read)
  = Ok ["404 Client Error"].
Proof.
  set (req := Request GET "mock://test.net/guid/8A" "/guid/8A" "" [] None).
  assert (Hr : send mock_server req
               = Ok (Response 404 (Some "mock client error test")
                       (Json.dumps (JObj (spec_read_body "8A")))))
    by (vm_compute; reflexivity).
  exact (printed_over_mock (fun _ => "404 Client Error")
           (fun call => send mock_server
              (Request (call_method call) (call_url call) "/guid/8A" "" []
                       (call_data call)))
           read_request
           (Args.Namespace "mock://test.net" (Some "8A") None None Read)
           req _ eq_refl Hr).
Defined.

(** X17. Exceptions of the mock are not handled.  The call is made
    outside the [try] of [handle_response]: when the adapter raises, the
    exception leaves the decorated function and nothing is printed.  For
    a request body that the model covers, the adapter raises
    [NoMockAddress], [IndexError], [TypeError] or the decoder's
    [JSONDecodeError], and nothing else; what the interpreter raises on a
    body beyond its limits is left open, and escapes in the same way. *)
Theorem mock_exceptions_escape
  (http_error_msg : response -> string)
  (session_send : http_request -> result response)
  (request_func : Args.namespace -> http_request)
  (args : Args.namespace) (req : request) (e : exn) :
  session_send (request_func args) = send mock_server req ->
  send mock_server req = Raise e ->
  handle_response http_error_msg session_send request_func args = Raise e /\
  (modelled (text req) = true ->
   e = NoMockAddress \/ e = IndexError \/ e = TypeError \/ e = JSONDecodeError).
Proof.
  intros Hs Hr. split; [|intros _; exact (send_mock_server_raises req e Hr)].
  unfold handle_response. now rewrite Hs, Hr.
Qed.

Lemma mock_exceptions_escape_witness :
  handle_response (fun _ => "error")
    (fun call => send mock_server
       (Request (call_method call) (call_url call) "/guid/8A" "" [] (call_data call)))
    read_request
    (Args.Namespace "mock://other.net" (Some "8A") None None Read)
  = Raise NoMockAddress.
Proof.
  set (req := Request GET "mock://other.net/guid/8A" "/guid/8A" "" [] None).
  assert (Hr : send mock_server req = Raise NoMockAddress)
    by (vm_compute; reflexivity).
  exact (proj1 (mock_exceptions_escape (fun _ => "error")
           (fun call => send mock_server
              (Request (call_method call) (call_url call) "/guid/8A" "" []
                       (call_data call)))
           read_request
           (Args.Namespace "mock://other.net" (Some "8A") None None Read)
           req _ eq_refl Hr)).
Defined.
